(** * The fsspec connector of [unstructured.ingest]

    A shallow embedding of [unstructured/ingest/connector/fsspec.py]:
    the address parser ([SimpleFsspecConfig.__post_init__]), the corpus
    lister ([FsspecConnector]) and the per-document lifecycle
    ([FsspecIngestDoc]).

    Conventions.  A Python [str] is a [string]; each [ascii] stands for the
    code point of the same number (0..255).  A Python call that may raise
    returns a [result]; a method that mutates [self] or the host is a
    function on an explicit state. *)

From Stdlib Require Import Ascii String List Bool Arith ZArith Lia.
From stdpp Require Import base option list strings gmap.

Local Open Scope list_scope.

#[local] Arguments String.append !_ _ : simpl nomatch.

(** ** Exceptions and results *)

Inductive exn : Type :=
| ValueError (msg : string)
| TypeError (msg : string)
| ReadError (msg : string)          (* tarfile.ReadError *)
| OtherError (cls msg : string).    (* any other exception class *)

Inductive result (A : Type) : Type :=
| Ok (a : A)
| Raise (e : exn).
Arguments Ok {A} a.
Arguments Raise {A} e.

(** ** Python string primitives *)

Module PyStr.

(** [s.startswith(p)], returning the rest of [s] after [p]. *)
Fixpoint strip_prefix (p s : string) : option string :=
  match p with
  | EmptyString => Some s
  | String a p' =>
      match s with
      | EmptyString => None
      | String b s' => if Ascii.eqb a b then strip_prefix p' s' else None
      end
  end.

Definition startswith (s p : string) : bool :=
  match strip_prefix p s with Some _ => true | None => false end.

(** [sub in s]. *)
Fixpoint contains (sub s : string) : bool :=
  match s with
  | EmptyString => startswith s sub
  | String _ s' => startswith s sub || contains sub s'
  end.

(** The left-to-right scan of [s.split(sep)] for a non-empty [sep]:
    [skip] counts the characters of a separator found earlier that are
    still to be dropped, [cur] is the piece being accumulated. *)
Fixpoint split_from (sep s : string) (skip : nat) (cur : string) : list string :=
  match s with
  | EmptyString => [cur]
  | String c s' =>
      match skip with
      | S k => split_from sep s' k cur
      | O =>
          if startswith s sep
          then cur :: split_from sep s' (String.length sep - 1) EmptyString
          else split_from sep s' 0 (cur +:+ String c EmptyString)
      end
  end.

Definition split (s sep : string) : list string := split_from sep s 0 EmptyString.

(** The scan of [s.replace(old, new)] for a non-empty [old]: every
    occurrence found left to right is replaced. *)
Fixpoint replace_from (old new s : string) (skip : nat) : string :=
  match s with
  | EmptyString => EmptyString
  | String c s' =>
      match skip with
      | S k => replace_from old new s' k
      | O =>
          if startswith s old
          then new +:+ replace_from old new s' (String.length old - 1)
          else String c (replace_from old new s' 0)
      end
  end.

Definition replace (s old new : string) : string := replace_from old new s 0.

(** [str.isspace] on one character, which is what [\s] matches in a [str]
    pattern: TAB..CR, FS..US, space, NEL and NBSP below code point 256. *)
Definition isspace (c : ascii) : bool :=
  let n := nat_of_ascii c in
  ((9 <=? n) && (n <=? 13)) || ((28 <=? n) && (n <=? 32))
  || (n =? 133) || (n =? 160).

Definition is_slash (c : ascii) : bool := Ascii.eqb c "/"%char.

Fixpoint forallb (p : ascii -> bool) (s : string) : bool :=
  match s with
  | EmptyString => true
  | String c s' => p c && forallb p s'
  end.

(** [s[:n]] for [0 <= n]. *)
Fixpoint take (n : nat) (s : string) : string :=
  match n, s with
  | S n', String c s' => String c (take n' s')
  | _, _ => EmptyString
  end.

(** [s.rstrip("/")] *)
Fixpoint rstrip_slash (s : string) : string :=
  match s with
  | EmptyString => EmptyString
  | String c s' =>
      match rstrip_slash s' with
      | EmptyString => if is_slash c then EmptyString else String c EmptyString
      | r => String c r
      end
  end.

(** The string is over or goes on with a character outside the class. *)
Definition stops (p : ascii -> bool) (s : string) : bool :=
  match s with
  | EmptyString => true
  | String c _ => negb (p c)
  end.

End PyStr.

(** ** The fragment of [re] the connector uses

    A backtracking matcher in continuation-passing style.  [re.match]
    anchors the pattern at the start of the string only. *)

Module Re.

Inductive regex : Type :=
| Lit (s : string)                  (* literal text *)
| Class (p : ascii -> bool)         (* one character of a class: [..] *)
| LazyPlus (p : ascii -> bool)      (* [..]+? *)
| GreedyStar (p : ascii -> bool)    (* [..]* or c* *)
| Dollar                            (* $ *)
| Group (n : nat) (r : regex)       (* the n-th parenthesis *)
| Seq (r1 r2 : regex).

Definition captures : Type := list (nat * string).
Definition cont : Type := string -> captures -> option captures.

(** [+?] tries to stop after each character before taking one more. *)
Fixpoint lazy_plus (p : ascii -> bool) (s : string) (caps : captures) (k : cont)
  : option captures :=
  match s with
  | EmptyString => None
  | String c s' =>
      if p c then
        match k s' caps with
        | Some r => Some r
        | None => lazy_plus p s' caps k
        end
      else None
  end.

(** [*] takes as many characters as it can and gives them back one by one. *)
Fixpoint greedy_star (p : ascii -> bool) (s : string) (caps : captures) (k : cont)
  : option captures :=
  match s with
  | EmptyString => k s caps
  | String c s' =>
      if p c then
        match greedy_star p s' caps k with
        | Some r => Some r
        | None => k s caps
        end
      else k s caps
  end.

(** [$] without MULTILINE: the end of the string, or just before a
    newline that ends the string. *)
Definition at_end (s : string) : bool :=
  match s with
  | EmptyString => true
  | String c EmptyString => Ascii.eqb c "010"%char
  | _ => false
  end.

Fixpoint exec (r : regex) (s : string) (caps : captures) (k : cont) : option captures :=
  match r with
  | Lit l =>
      match PyStr.strip_prefix l s with
      | Some s' => k s' caps
      | None => None
      end
  | Class p =>
      match s with
      | String c s' => if p c then k s' caps else None
      | EmptyString => None
      end
  | LazyPlus p => lazy_plus p s caps k
  | GreedyStar p => greedy_star p s caps k
  | Dollar => if at_end s then k s caps else None
  | Group n r' =>
      exec r' s caps
        (fun s' caps' =>
           k s' ((n, PyStr.take (String.length s - String.length s') s) :: caps'))
  | Seq r1 r2 => exec r1 s caps (fun s' caps' => exec r2 s' caps' k)
  end.

(** [re.match(r, s)]: [None], or the groups of the first match found. *)
Definition re_match (r : regex) (s : string) : option captures :=
  exec r s [] (fun _ caps => Some caps).

(** [m.group(n)] of a group that took part in the match. *)
Fixpoint group (n : nat) (m : captures) : string :=
  match m with
  | [] => EmptyString
  | (i, s) :: m' => if Nat.eqb i n then s else group n m'
  end.

End Re.

(** ** SimpleFsspecConfig *)

Definition SUPPORTED_REMOTE_FSSPEC_PROTOCOLS : list string :=
  ["s3"; "s3a"; "abfs"; "az"; "gs"; "gcs"; "box"; "dropbox"].

Record SimpleFsspecConfig : Type := {
  path : string;
  recursive : bool;
  access_kwargs : list (string * string);
  protocol : string;
  path_without_protocol : string;
  dir_path : string;
  file_path : string;
  uncompress : bool
}.

Definition str_in (s : string) (l : list string) : bool :=
  existsb (String.eqb s) l.

Definition not_slash_or_space (c : ascii) : bool :=
  negb (PyStr.is_slash c) && negb (PyStr.isspace c).

Definition not_space (c : ascii) : bool := negb (PyStr.isspace c).

Import Re.

(** The pattern  protocol :// ([\s]) /  of the first [re.match]. *)
Definition re_dropbox_root (protocol : string) : regex :=
  Seq (Lit protocol) (Seq (Lit "://") (Seq (Group 1 (Class PyStr.isspace)) (Lit "/"))).

(** The pattern  protocol :// ([^/\s]+?) (/ star) $  of the second. *)
Definition re_dir_only (protocol : string) : regex :=
  Seq (Lit protocol) (Seq (Lit "://")
    (Seq (Group 1 (LazyPlus not_slash_or_space))
       (Seq (Group 2 (GreedyStar PyStr.is_slash)) Dollar))).

(** The pattern  protocol :// ([^/\s]+?) / ([^\s] star)  of the third. *)
Definition re_dir_and_file (protocol : string) : regex :=
  Seq (Lit protocol) (Seq (Lit "://")
    (Seq (Group 1 (LazyPlus not_slash_or_space))
       (Seq (Lit "/") (Group 2 (GreedyStar not_space))))).

Definition unsupported_msg (protocol : string) : string :=
  "Protocol " +:+ protocol +:+
  " not supported yet, only ['s3', 's3a', 'abfs', 'az', 'gs', 'gcs', 'box', 'dropbox'] are supported.".

Definition invalid_path_msg (path : string) : string :=
  "Invalid path " +:+ path +:+
  ". Expected <protocol>://<dir-path>/<file-or-dir-path>.".

Definition not_enough_msg : string := "not enough values to unpack (expected 2, got 1)".
Definition too_many_msg : string := "too many values to unpack (expected 2)".

(** The two-target unpacking of [self.path.split("://")]. *)
Definition unpack2 (parts : list string) : result (string * string) :=
  match parts with
  | [a; b] => Ok (a, b)
  | [] | [_] => Raise (ValueError not_enough_msg)
  | _ => Raise (ValueError too_many_msg)
  end.

(** Truth value of a match object or [None]. *)
Definition matched (m : option captures) : bool :=
  match m with Some _ => true | None => false end.

(** [SimpleFsspecConfig.__post_init__], from the fields given to the
    constructor to the completed object.  The protocol interpolated into
    the three patterns has passed the membership test, so it consists of
    letters and digits and stands for itself in the pattern. *)
Definition __post_init__ (path : string) (recursive : bool)
    (access_kwargs : list (string * string)) (uncompress : bool)
  : result SimpleFsspecConfig :=
  match unpack2 (PyStr.split path "://") with
  | Raise e => Raise e
  | Ok (protocol, path_without_protocol) =>
      let self dir_path file_path :=
        {| path := path; recursive := recursive; access_kwargs := access_kwargs;
           protocol := protocol; path_without_protocol := path_without_protocol;
           dir_path := dir_path; file_path := file_path; uncompress := uncompress |} in
      if negb (str_in protocol SUPPORTED_REMOTE_FSSPEC_PROTOCOLS)
      then Raise (ValueError (unsupported_msg protocol))
      else if matched (re_match (re_dropbox_root protocol) path)
              && String.eqb protocol "dropbox"
      then Ok (self " " "")
      else
        match re_match (re_dir_only protocol) path with
        | Some m => Ok (self (group 1 m) "")
        | None =>
            match re_match (re_dir_and_file protocol) path with
            | None => Raise (ValueError (invalid_path_msg path))
            | Some m =>
                (* group 2, or the empty string where it is empty *)
                Ok (self (group 1 m) (group 2 m))
            end
        end
  end.

(** ** Listings of the remote filesystem *)

(** The values found in the metadata dictionaries of a listing. *)
Inductive pyval : Type :=
| PyNone
| PyInt (n : Z)
| PyStr (s : string).

(** [x.get(key)] on a metadata dictionary. *)
Definition dict_get (x : gmap string pyval) (key : string) : pyval :=
  match x !! key with
  | Some v => v
  | None => PyNone
  end.

(** [v > 0]: defined between integers, a [TypeError] otherwise. *)
Definition gt_zero (v : pyval) : result bool :=
  match v with
  | PyInt n => Ok (0 <? n)%Z
  | PyNone =>
      Raise (TypeError "'>' not supported between instances of 'NoneType' and 'int'")
  | PyStr _ =>
      Raise (TypeError "'>' not supported between instances of 'str' and 'int'")
  end.

(** The entry reports an integer size. *)
Definition int_size (x : gmap string pyval) : Prop :=
  exists n, dict_get x "size" = PyInt n.

(** The entry reports an integer size above zero. *)
Definition size_positive (x : gmap string pyval) : bool :=
  match dict_get x "size" with
  | PyInt n => (0 <? n)%Z
  | _ => false
  end.

(** [[f x for x in l if cond x]], evaluated left to right; the first
    exception raised by the condition ends the comprehension. *)
Fixpoint comprehension {A B : Type} (f : A -> B) (cond : A -> result bool)
    (l : list A) : result (list B) :=
  match l with
  | [] => Ok []
  | x :: l' =>
      match cond x with
      | Raise e => Raise e
      | Ok b =>
          match comprehension f cond l' with
          | Raise e => Raise e
          | Ok r => Ok (if b then f x :: r else r)
          end
      end
  end.

(** The part of fsspec's [AbstractFileSystem] the connector calls.
    [fs_ls] is [fs.ls(path, detail=True)]: one dictionary per entry
    ([fs.ls(path)] lists the same entries).  [fs_find] is the sequence
    [fs.find(path, detail=True).items()]. *)
Class AbstractFileSystem (FS : Type) : Type := {
  fs_ls : FS -> string -> result (list (gmap string pyval));
  fs_find : FS -> string -> result (list (string * gmap string pyval))
}.

Record StandardConnectorConfig : Type := {
  download_dir : string;
  output_dir : string
}.

Record FsspecConnector (FS : Type) : Type := {
  connector_standard_config : StandardConnectorConfig;
  connector_config : SimpleFsspecConfig;
  fs : FS
}.
Arguments connector_standard_config {FS} _.
Arguments connector_config {FS} _.
Arguments fs {FS} _.

(** ** Documents *)

Record FsspecIngestDoc (Child : Type) : Type := {
  standard_config : StandardConnectorConfig;
  config : SimpleFsspecConfig;
  remote_file_path : pyval;
  is_compressed : bool;
  children : list Child
}.
Arguments standard_config {Child} _.
Arguments config {Child} _.
Arguments remote_file_path {Child} _.
Arguments is_compressed {Child} _.
Arguments children {Child} _.

Section Connector.
Context {FS : Type} `{AbstractFileSystem FS}.

Definition no_objects_msg (path : string) : string :=
  "No objects found in " +:+ path +:+ ".".

(** [FsspecConnector.initialize] *)
Definition initialize (self : FsspecConnector FS) : result unit :=
  match fs_ls (fs self) (path_without_protocol (connector_config self)) with
  | Raise e => Raise e
  | Ok ls_output =>
      if (length ls_output <? 1)%nat
      then Raise (ValueError (no_objects_msg (path (connector_config self))))
      else Ok tt
  end.

(** [FsspecConnector._list_files] *)
Definition _list_files (self : FsspecConnector FS) : result (list pyval) :=
  if negb (recursive (connector_config self)) then
    match fs_ls (fs self) (path_without_protocol (connector_config self)) with
    | Raise e => Raise e
    | Ok entries =>
        comprehension (fun x => dict_get x "name")
                      (fun x => gt_zero (dict_get x "size")) entries
    end
  else
    match fs_find (fs self) (path_without_protocol (connector_config self)) with
    | Raise e => Raise e
    | Ok items =>
        comprehension (fun kv => PyStr (fst kv))
                      (fun kv => gt_zero (dict_get (snd kv) "size")) items
    end.

(** [FsspecConnector.get_ingest_docs] *)
Definition get_ingest_docs {Child : Type} (self : FsspecConnector FS)
  : result (list (FsspecIngestDoc Child)) :=
  match _list_files self with
  | Raise e => Raise e
  | Ok files =>
      Ok (map (fun file =>
                 {| standard_config := connector_standard_config self;
                    config := connector_config self;
                    remote_file_path := file;
                    is_compressed := false;
                    children := [] |}) files)
  end.

End Connector.

(** An in-memory backend: the listing is stored in the value itself. *)
Record TableFS : Type := {
  table_ls : list (gmap string pyval);
  table_find : list (string * gmap string pyval)
}.

#[export] Instance TableFS_fs : AbstractFileSystem TableFS := {
  fs_ls t _ := Ok (table_ls t);
  fs_find t _ := Ok (table_find t)
}.

(** ** Paths: [pathlib.PurePosixPath] and [os.path] on POSIX *)

Module PosixPath.

Record Path : Type := { root : string; parts : list string }.

Definition nonempty (s : string) : bool :=
  match s with EmptyString => false | _ => true end.

(** A part leaves a component unless it is empty or a lone dot. *)
Definition keeps (x : string) : bool :=
  nonempty x && negb (String.eqb x ".").

(** Exactly two leading slashes are kept as a root of their own. *)
Definition splitroot (s : string) : string :=
  if PyStr.startswith s "/" then
    if PyStr.startswith s "//" && negb (PyStr.startswith s "///") then "//" else "/"
  else "".

(** [Path(s)] *)
Definition of_string (s : string) : Path :=
  {| root := splitroot s; parts := List.filter keeps (PyStr.split s "/") |}.

(** [p / s]: an absolute right operand replaces the left one. *)
Definition truediv (p : Path) (s : string) : Path :=
  let q := of_string s in
  if nonempty (root q) then q
  else {| root := root p; parts := parts p ++ parts q |}.

Fixpoint join_parts (l : list string) : string :=
  match l with
  | [] => ""
  | [x] => x
  | x :: l' => x +:+ "/" +:+ join_parts l'
  end.

(** [p.as_posix()], which is also [str(p)]. *)
Definition as_posix (p : Path) : string :=
  match root p, parts p with
  | EmptyString, [] => "."
  | r, l => r +:+ join_parts l
  end.

(** [p.parent] *)
Definition parent (p : Path) : Path :=
  {| root := root p; parts := removelast (parts p) |}.

(** The cut of [s] after its last slash: [(s[:i], s[i:])] for
    [i = s.rfind("/") + 1]. *)
Fixpoint cut_last_slash (s : string) : string * string :=
  match s with
  | EmptyString => (EmptyString, EmptyString)
  | String c s' =>
      let (h, t) := cut_last_slash s' in
      if nonempty h then (String c h, t)
      else if PyStr.is_slash c then (String c EmptyString, t)
      else (EmptyString, String c t)
  end.

(** [os.path.split] *)
Definition os_path_split (p : string) : string * string :=
  let (head, tail) := cut_last_slash p in
  if nonempty head && negb (PyStr.forallb PyStr.is_slash head)
  then (PyStr.rstrip_slash head, tail)
  else (head, tail).

Fixpoint endswith_slash (s : string) : bool :=
  match s with
  | EmptyString => false
  | String c EmptyString => PyStr.is_slash c
  | String _ s' => endswith_slash s'
  end.

(** [os.path.join a b] *)
Definition os_path_join (a b : string) : string :=
  if PyStr.startswith b "/" then b
  else if negb (nonempty a) || endswith_slash a then a +:+ b
  else a +:+ "/" +:+ b.

End PosixPath.

Import PosixPath.

(** ** Stateful code: state passing with exceptions

    A raised exception keeps the state reached so far. *)

Definition M (S A : Type) : Type := S -> S * result A.

Definition ret {S A : Type} (a : A) : M S A := fun s => (s, Ok a).

Definition raise {S A : Type} (e : exn) : M S A := fun s => (s, Raise e).

Definition bind {S A B : Type} (m : M S A) (k : A -> M S B) : M S B :=
  fun s =>
    match m s with
    | (s', Ok a) => k a s'
    | (s', Raise e) => (s', Raise e)
    end.

(** [try: m  except <class>: h], the handler taking the exceptions that
    [catches] accepts. *)
Definition try_except {S A : Type} (m : M S A) (catches : exn -> bool)
    (h : exn -> M S A) : M S A :=
  fun s =>
    match m s with
    | (s', Raise e) => if catches e then h e s' else (s', Raise e)
    | r => r
    end.

Definition when {S : Type} (b : bool) (m : M S unit) : M S unit :=
  if b then m else ret tt.

Notation "'do' x <- m ; k" := (bind m (fun x => k))
  (at level 10, x name, m at level 100, k at level 200).
Notation "m ;; k" := (bind m (fun _ => k))
  (at level 100, k at level 200, right associativity).

(** ** The host of a document: local disk, libraries, collaborators *)

Inductive Level : Type := DEBUG | INFO | WARNING | ERROR.

(** What a run leaves behind for an observer: log records and the calls
    made to the remote filesystem. *)
Inductive Event : Type :=
| Log (level : Level) (msg : string)
| FsGet (rpath : pyval) (lpath : string).

(** Operations the document code calls but does not define.  [H] is the
    state of the local disk, [Child] the document class of the local
    connector, [Elements] what partitioning a file yields. *)
Class Host (H Child Elements : Type) : Type := {
  (** [Path.is_file()] *)
  path_is_file : string -> H -> bool;
  (** [Path.mkdir(parents=True, exist_ok=True)] *)
  mkdir_parents : string -> H -> H * result unit;
  (** building the filesystem object of a protocol from the access
      keywords, which may fail *)
  get_filesystem_class : string -> list (string * string) -> H -> result unit;
  (** [fs.get(rpath=.., lpath=..)] on that object *)
  fs_get : string -> list (string * string) -> pyval -> string -> H -> H * result unit;
  (** the rendering of the debug message, which shows [self] and the
      process id *)
  fetching_msg : FsspecIngestDoc Child -> H -> string;
  (** [zipfile.is_zipfile] answers [False] where it cannot read *)
  is_zipfile : string -> H -> bool;
  (** [tarfile.is_tarfile] lets operating-system errors through *)
  is_tarfile : string -> H -> result bool;
  (** [with zipfile.ZipFile(src) as z: z.extractall(path=dst)] *)
  zip_extractall : string -> string -> H -> H * result unit;
  (** [with tarfile.TarFile(src) as t: t.extractall(path=dst)] *)
  tar_extractall : string -> string -> H -> H * result unit;
  (** [LocalConnector(standard_config, SimpleLocalConfig(input_path,
      recursive=True)).get_ingest_docs()] *)
  local_get_ingest_docs : StandardConnectorConfig -> string -> H -> H * result (list Child);
  (** [BaseIngestDoc.process_file] and [BaseIngestDoc.write_result] *)
  super_process_file : FsspecIngestDoc Child -> H -> H * result (option Elements);
  super_write_result : FsspecIngestDoc Child -> H -> H * result unit
}.

Record St (H Child : Type) : Type := {
  host : H;
  self : FsspecIngestDoc Child;
  trace : list Event
}.
Arguments host {H Child} _.
Arguments self {H Child} _.
Arguments trace {H Child} _.

Section IngestDoc.
Context {H Child Elements : Type} `{Host H Child Elements}.

Local Abbreviation Doc := (FsspecIngestDoc Child).
Local Abbreviation State := (St H Child).

(** Running a host operation on the host component of the state. *)
Definition on_host {A : Type} (op : H -> H * result A) : M State A :=
  fun st =>
    let (h, r) := op (host st) in
    ({| host := h; self := self st; trace := trace st |}, r).

Definition ask_host {A : Type} (q : H -> A) : M State A :=
  fun st => (st, Ok (q (host st))).

Definition lift {A : Type} (r : result A) : M State A := fun st => (st, r).

Definition emit (e : Event) : M State unit :=
  fun st => ({| host := host st; self := self st; trace := trace st ++ [e] |}, Ok tt).

Definition get_self : M State Doc := fun st => (st, Ok (self st)).

(** [self.is_compressed = True] *)
Definition set_is_compressed : M State unit :=
  fun st =>
    let d := self st in
    ({| host := host st;
        self := {| standard_config := standard_config d; config := config d;
                   remote_file_path := remote_file_path d;
                   is_compressed := true; children := children d |};
        trace := trace st |}, Ok tt).

(** [self.children.extend(docs)] *)
Definition children_extend (docs : list Child) : M State unit :=
  fun st =>
    let d := self st in
    ({| host := host st;
        self := {| standard_config := standard_config d; config := config d;
                   remote_file_path := remote_file_path d;
                   is_compressed := is_compressed d;
                   children := children d ++ docs |};
        trace := trace st |}, Ok tt).

(** [self.remote_file_path.replace(..)], every occurrence of the
    directory path followed by a slash replaced by the empty string;
    only a [str] has the method. *)
Definition relative_key (d : Doc) : result string :=
  match remote_file_path d with
  | PyStr key => Ok (PyStr.replace key (dir_path (config d) +:+ "/") "")
  | PyNone =>
      Raise (OtherError "AttributeError" "'NoneType' object has no attribute 'replace'")
  | PyInt _ =>
      Raise (OtherError "AttributeError" "'int' object has no attribute 'replace'")
  end.

(** [FsspecIngestDoc._tmp_download_file] *)
Definition _tmp_download_file (d : Doc) : result Path :=
  match relative_key d with
  | Raise e => Raise e
  | Ok rel => Ok (truediv (of_string (download_dir (standard_config d))) rel)
  end.

(** [FsspecIngestDoc._output_filename] *)
Definition _output_filename (d : Doc) : result Path :=
  match relative_key d with
  | Raise e => Raise e
  | Ok rel => Ok (truediv (of_string (output_dir (standard_config d))) (rel +:+ ".json"))
  end.

(** [FsspecIngestDoc.filename] *)
Definition filename (d : Doc) : result Path := _tmp_download_file d.

(** [FsspecIngestDoc.get_children] *)
Definition get_children (d : Doc) : list Child := children d.

(** [FsspecIngestDoc.process_file] *)
Definition process_file : M State (option Elements) :=
  do d <- get_self;
  if is_compressed d then
    do f <- lift (filename d);
    emit (Log WARNING ("file detected as zip, skipping process file: " +:+ as_posix f)) ;;
    ret None
  else on_host (super_process_file d).

(** [FsspecIngestDoc.write_result] *)
Definition write_result : M State unit :=
  do d <- get_self;
  if is_compressed d then
    do f <- lift (filename d);
    emit (Log WARNING ("file detected as zip, skipping write results: " +:+ as_posix f)) ;;
    ret tt
  else on_host (super_write_result d).

(** [FsspecIngestDoc._create_full_tmp_dir_path] *)
Definition _create_full_tmp_dir_path : M State unit :=
  do d <- get_self;
  do f <- lift (_tmp_download_file d);
  on_host (mkdir_parents (as_posix (parent f))).

(** The extraction directory: the archive path with a suffix on its
    last component, as built by [os.path.split] and [os.path.join]. *)
Definition uncompressed_dir (archive suffix : string) : string :=
  let (head, tail) := os_path_split archive in
  os_path_join head (tail +:+ suffix).

Definition local_docs (input_path : string) : M State (list Child) :=
  do d <- get_self;
  on_host (local_get_ingest_docs (standard_config d) input_path).

(** [FsspecIngestDoc.process_zip] *)
Definition process_zip (zip_path : string) : M State unit :=
  let path := uncompressed_dir zip_path "-zip-uncompressed" in
  emit (Log INFO ("extracting zip " +:+ zip_path +:+ " -> " +:+ path)) ;;
  on_host (zip_extractall zip_path path) ;;
  do docs <- local_docs path;
  children_extend docs.

Definition is_ReadError (e : exn) : bool :=
  match e with ReadError _ => true | _ => false end.

Definition exn_str (e : exn) : string :=
  match e with
  | ValueError m | TypeError m | ReadError m | OtherError _ m => m
  end.

(** [FsspecIngestDoc.process_tar]; the handler returns from the method,
    so the [try] statement tells whether the rest of the method runs. *)
Definition process_tar (tar_path : string) : M State unit :=
  let path := uncompressed_dir tar_path "-tar-uncompressed" in
  emit (Log INFO ("extracting tar " +:+ tar_path +:+ " -> " +:+ path)) ;;
  do extracted <-
    try_except
      (on_host (tar_extractall tar_path path) ;; ret true)
      is_ReadError
      (fun read_error =>
         emit (Log ERROR ("failed to uncompress tar " +:+ tar_path +:+ ": "
                          +:+ exn_str read_error)) ;;
         ret false);
  if extracted then
    do docs <- local_docs path;
    children_extend docs
  else ret tt.

(** The body of [FsspecIngestDoc.get_file], without its decorator. *)
Definition get_file_body : M State unit :=
  _create_full_tmp_dir_path ;;
  do d <- get_self;
  on_host (fun h => (h, get_filesystem_class (protocol (config d)) (access_kwargs (config d)) h)) ;;
  do msg <- ask_host (fetching_msg d);
  emit (Log DEBUG msg) ;;
  do f <- lift (_tmp_download_file d);
  let lpath := as_posix f in
  emit (FsGet (remote_file_path d) lpath) ;;
  on_host (fs_get (protocol (config d)) (access_kwargs (config d))
             (remote_file_path d) lpath) ;;
  do z <- ask_host (is_zipfile lpath);
  when z
    (set_is_compressed ;;
     when (uncompress (config d)) (process_zip lpath)) ;;
  do t <- on_host (fun h => (h, is_tarfile lpath h));
  when t
    (set_is_compressed ;;
     when (uncompress (config d)) (process_tar lpath)).

(** Modelled from the spec: [BaseIngestDoc.skip_if_file_exists], the
    decorator of [get_file], is defined in unstructured/ingest/interfaces.py,
    which is not among the sources.  The spec: if the local cache path
    already exists, the fetch step is skipped entirely. *)
Definition skip_if_file_exists (func : M State unit) : M State unit :=
  do d <- get_self;
  do f <- lift (filename d);
  do present <- ask_host (path_is_file (as_posix f));
  if present then ret tt else func.

(** [FsspecIngestDoc.get_file] *)
Definition get_file : M State unit := skip_if_file_exists get_file_body.

End IngestDoc.

(** The calls made to the remote filesystem during a run. *)
Definition fetch_calls (t : list Event) : list (pyval * string) :=
  flat_map (fun e => match e with FsGet r l => [(r, l)] | Log _ _ => [] end) t.

(** A step that calls the remote filesystem no further and leaves the
    identity of the document (its configuration and remote key) alone. *)
Definition quiet {H Child A : Type} (m : M (St H Child) A) : Prop :=
  forall st,
    fetch_calls (trace (fst (m st))) = fetch_calls (trace st) /\
    standard_config (self (fst (m st))) = standard_config (self st) /\
    config (self (fst (m st))) = config (self st) /\
    remote_file_path (self (fst (m st))) = remote_file_path (self st).

(** ** Sample data

    A bucket with a directory marker, a file and an entry without size;
    a host held in memory, whose files are known by their kind. *)

Definition entry_dir : gmap string pyval :=
  {[ "name" := PyStr "bucket/reports"; "size" := PyInt 0 ]}.
Definition entry_file : gmap string pyval :=
  {[ "name" := PyStr "bucket/a.txt"; "size" := PyInt 12 ]}.
Definition entry_no_size : gmap string pyval :=
  {[ "name" := PyStr "bucket/b.txt" ]}.

(** The key under which [fs.find] reports an entry. *)
Definition entry_key (x : gmap string pyval) : string :=
  match dict_get x "name" with
  | PyStr name => name
  | _ => ""
  end.

Definition sample_config (recursive uncompress : bool) : SimpleFsspecConfig :=
  {| path := "s3://bucket"; recursive := recursive; access_kwargs := [];
     protocol := "s3"; path_without_protocol := "bucket";
     dir_path := "bucket"; file_path := ""; uncompress := uncompress |}.

Definition sample_standard_config : StandardConnectorConfig :=
  {| download_dir := "/tmp/dl"; output_dir := "/out" |}.

Definition sample_connector (recursive : bool) (ls : list (gmap string pyval))
  : FsspecConnector TableFS :=
  {| connector_standard_config := sample_standard_config;
     connector_config := sample_config recursive false;
     fs := {| table_ls := ls; table_find := map (fun x => (entry_key x, x)) ls |} |}.

Inductive Kind : Type :=
| PlainFile
| ZipFile (sound : bool)
| TarFile (sound : bool).

Record LocalDoc : Type := { local_path : string }.

Record MemHost : Type := {
  disk : gmap string Kind;
  bucket : gmap string Kind
}.

Definition mem_fs_get (rpath : pyval) (lpath : string) (h : MemHost)
  : MemHost * result unit :=
  match rpath with
  | PyStr key =>
      match bucket h !! key with
      | Some k => ({| disk := <[lpath := k]> (disk h); bucket := bucket h |}, Ok tt)
      | None => (h, Raise (OtherError "FileNotFoundError" key))
      end
  | _ => (h, Raise (TypeError "expected str"))
  end.

Definition mem_extract (zip : bool) (src dst : string) (h : MemHost)
  : MemHost * result unit :=
  match disk h !! src, zip with
  | Some (ZipFile true), true | Some (TarFile true), false =>
      ({| disk := <[dst +:+ "/inner.txt" := PlainFile]> (disk h); bucket := bucket h |},
       Ok tt)
  | _, true => (h, Raise (OtherError "BadZipFile" "File is not a zip file"))
  | _, false => (h, Raise (ReadError "truncated header"))
  end.

#[export] Instance MemHost_host : Host MemHost LocalDoc (list string) := {
  path_is_file p h := match disk h !! p with Some _ => true | None => false end;
  mkdir_parents _ h := (h, Ok tt);
  get_filesystem_class _ _ _ := Ok tt;
  fs_get _ _ rpath lpath h := mem_fs_get rpath lpath h;
  fetching_msg _ _ := "Fetching";
  is_zipfile p h := match disk h !! p with Some (ZipFile _) => true | _ => false end;
  is_tarfile p h := Ok (match disk h !! p with Some (TarFile _) => true | _ => false end);
  zip_extractall := mem_extract true;
  tar_extractall := mem_extract false;
  local_get_ingest_docs _ input h := (h, Ok [{| local_path := input +:+ "/inner.txt" |}]);
  super_process_file _ h := (h, Ok (Some ["element"]));
  super_write_result _ h := (h, Ok tt)
}.

Definition sample_doc (key : string) (uncompress compressed : bool)
  : FsspecIngestDoc LocalDoc :=
  {| standard_config := sample_standard_config;
     config := sample_config false uncompress;
     remote_file_path := PyStr key;
     is_compressed := compressed;
     children := [] |}.

Definition sample_state (key : string) (k : Kind) (uncompress compressed : bool)
  : St MemHost LocalDoc :=
  {| host := {| disk := ∅; bucket := {[ key := k ]} |};
     self := sample_doc key uncompress compressed;
     trace := [] |}.

(** The same document once its file is on the local disk. *)
Definition fetched_state (key lpath : string) (k : Kind) (uncompress compressed : bool)
  : St MemHost LocalDoc :=
  {| host := {| disk := {[ lpath := k ]}; bucket := {[ key := k ]} |};
     self := sample_doc key uncompress compressed;
     trace := [] |}.

(** ** Further vocabulary for the lifecycle *)

(** A step that keeps the identity of the document, only adds to its
    children and to the trace, and does not take the archive mark back. *)
Definition grows {H Child A : Type} (m : M (St H Child) A) : Prop :=
  forall st,
    standard_config (self (fst (m st))) = standard_config (self st) /\
    config (self (fst (m st))) = config (self st) /\
    remote_file_path (self (fst (m st))) = remote_file_path (self st) /\
    (exists more, children (self (fst (m st))) = children (self st) ++ more) /\
    (is_compressed (self st) = true -> is_compressed (self (fst (m st))) = true) /\
    (exists events, trace (fst (m st)) = trace st ++ events).

(** The document with the archive mark set, and with further children. *)
Definition marked {Child : Type} (d : FsspecIngestDoc Child) : FsspecIngestDoc Child :=
  {| standard_config := standard_config d; config := config d;
     remote_file_path := remote_file_path d;
     is_compressed := true; children := children d |}.

Definition with_children {Child : Type} (d : FsspecIngestDoc Child) (docs : list Child)
  : FsspecIngestDoc Child :=
  {| standard_config := standard_config d; config := config d;
     remote_file_path := remote_file_path d;
     is_compressed := is_compressed d; children := children d ++ docs |}.

(** A host in memory whose operations can be made to fail. *)
Record FlakyHost : Type := {
  base : MemHost;
  mkdir_error : option exn;
  build_error : option exn;
  extract_error : option exn;
  local_error : option exn
}.

Definition on_base {A : Type} (op : MemHost -> MemHost * result A) (h : FlakyHost)
  : FlakyHost * result A :=
  let (b, r) := op (base h) in
  ({| base := b; mkdir_error := mkdir_error h; build_error := build_error h;
      extract_error := extract_error h; local_error := local_error h |}, r).

Definition failing {A : Type} (e : option exn) (op : FlakyHost -> FlakyHost * result A)
    (h : FlakyHost) : FlakyHost * result A :=
  match e with
  | Some e => (h, Raise e)
  | None => op h
  end.

#[export] Instance FlakyHost_host : Host FlakyHost LocalDoc (list string) := {
  path_is_file p h := path_is_file (H := MemHost) p (base h);
  mkdir_parents p h := failing (mkdir_error h) (on_base (mkdir_parents p)) h;
  get_filesystem_class _ _ h :=
    match build_error h with Some e => Raise e | None => Ok tt end;
  fs_get proto kw rpath lpath := on_base (fs_get proto kw rpath lpath);
  fetching_msg _ _ := "Fetching";
  is_zipfile p h := is_zipfile (H := MemHost) p (base h);
  is_tarfile p h := is_tarfile (H := MemHost) p (base h);
  zip_extractall src dst h :=
    failing (extract_error h) (on_base (zip_extractall src dst)) h;
  tar_extractall src dst h :=
    failing (extract_error h) (on_base (tar_extractall src dst)) h;
  local_get_ingest_docs sc input h :=
    failing (local_error h) (on_base (local_get_ingest_docs sc input)) h;
  super_process_file d := on_base (super_process_file
                                     (Elements := list string) d);
  super_write_result d := on_base (super_write_result (Elements := list string) d)
}.

Definition flaky (b : MemHost) (mk bd ex lo : option exn) : FlakyHost :=
  {| base := b; mkdir_error := mk; build_error := bd;
     extract_error := ex; local_error := lo |}.

Definition flaky_state (key lpath : string) (k : Kind) (uncompress : bool)
    (mk bd ex lo : option exn) : St FlakyHost LocalDoc :=
  {| host := flaky {| disk := {[ lpath := k ]}; bucket := {[ key := k ]} |} mk bd ex lo;
     self := sample_doc key uncompress false;
     trace := [] |}.

Definition entry_nameless : gmap string pyval := {[ "size" := PyInt 3 ]}.

(** A document of the rootless dropbox address, and one without key. *)
Definition dropbox_doc (key : pyval) : FsspecIngestDoc LocalDoc :=
  {| standard_config := sample_standard_config;
     config := {| path := "dropbox:// /"; recursive := false; access_kwargs := [];
                  protocol := "dropbox"; path_without_protocol := " /";
                  dir_path := " "; file_path := ""; uncompress := false |};
     remote_file_path := key;
     is_compressed := false;
     children := [] |}.

(** * Facts about the string primitives *)

Module PyStrFacts.
Import PyStr.

Lemma append_nil_r (s : string) : s +:+ "" = s.
Proof. induction s as [|c s IH]; simpl; [reflexivity | now rewrite IH]. Qed.

Lemma append_assoc (a b c : string) : (a +:+ b) +:+ c = a +:+ (b +:+ c).
Proof. induction a as [|x a IH]; simpl; [reflexivity | now rewrite IH]. Qed.

Lemma strip_prefix_app (p s : string) : strip_prefix p (p +:+ s) = Some s.
Proof.
  induction p as [|a p IH]; simpl; [reflexivity |].
  now rewrite Ascii.eqb_refl.
Qed.

Lemma strip_prefix_inv (p s r : string) :
  strip_prefix p s = Some r -> s = p +:+ r.
Proof.
  revert s; induction p as [|a p IH]; intros s; simpl.
  - now intros [= ->].
  - destruct s as [|b s]; [discriminate |].
    destruct (Ascii.eqb a b) eqn:E; [| discriminate].
    apply Ascii.eqb_eq in E as ->. intros Hs. now rewrite (IH _ Hs).
Qed.

Lemma startswith_cons (a c : ascii) (p s : string) :
  startswith (String c s) (String a p)
  = if Ascii.eqb a c then startswith s p else false.
Proof. unfold startswith. cbn [strip_prefix]. now destruct (Ascii.eqb a c). Qed.

Lemma startswith_app (p s : string) : startswith (p +:+ s) p = true.
Proof. unfold startswith. now rewrite strip_prefix_app. Qed.

Lemma startswith_inv (p s : string) :
  startswith s p = true -> exists r, s = p +:+ r.
Proof.
  unfold startswith. destruct (strip_prefix p s) as [r|] eqn:E; [| discriminate].
  intros _. exists r. now apply strip_prefix_inv.
Qed.

(** A prefix found in [a] is still found when [a] is extended. *)
Lemma startswith_extend (p a b : string) :
  startswith a p = true -> startswith (a +:+ b) p = true.
Proof.
  intros [r ->]%startswith_inv. rewrite append_assoc. apply startswith_app.
Qed.

Lemma contains_app_r (sub a b : string) :
  contains sub b = true -> contains sub (a +:+ b) = true.
Proof.
  intros Hb. induction a as [|c a IH]; simpl; [assumption |].
  rewrite IH. apply orb_true_r.
Qed.

Lemma contains_app_l (sub a b : string) :
  contains sub a = true -> contains sub (a +:+ b) = true.
Proof.
  induction a as [|c a IH]; simpl.
  - intros Hs. destruct sub; [| discriminate].
    destruct b; reflexivity.
  - intros [Hs | Hs]%orb_true_iff.
    + change (String c (a +:+ b)) with (String c a +:+ b).
      now rewrite (startswith_extend _ _ _ Hs).
    + rewrite (IH Hs). apply orb_true_r.
Qed.

(** The first occurrence: a string that contains [sub] splits around
    its leftmost occurrence. *)
Lemma contains_first (sub s : string) :
  contains sub s = true ->
  exists p r, s = p +:+ sub +:+ r /\
              (forall q t, p = q +:+ t -> t <> "" -> startswith (t +:+ sub +:+ r) sub = false).
Proof.
  induction s as [|c s IH]; simpl.
  - intros [r Hr]%startswith_inv. exists "", r. split; [assumption |].
    intros q t Hq Ht. destruct q, t; simpl in Hq; congruence.
  - destruct (startswith (String c s) sub) eqn:E.
    + intros _. apply startswith_inv in E as [r Hr]. exists "", r.
      split; [assumption |].
      intros q t Hq Ht. destruct q, t; simpl in Hq; congruence.
    + simpl. intros (p & r & -> & Hp)%IH.
      exists (String c p), r. split; [reflexivity |].
      intros q t Hq Ht. destruct q as [|x q]; simpl in Hq.
      * subst t. exact E.
      * injection Hq as -> ->. now apply (Hp q t).
Qed.

Lemma contains_suffix_false (sub a b : string) :
  contains sub (a +:+ b) = false -> contains sub b = false.
Proof.
  intros Hab. destruct (contains sub b) eqn:E; [| reflexivity].
  now rewrite (contains_app_r sub a b E) in Hab.
Qed.

Lemma contains_head_false (sub s : string) :
  contains sub s = false -> startswith s sub = false.
Proof. destruct s; simpl; [tauto |]. now intros [? ?]%orb_false_iff. Qed.

(** If no occurrence of [sub] starts inside [p], then [p] does not
    contain [sub]. *)
Lemma first_at_contains (sub p r : string) :
  sub <> "" ->
  (forall q t, p = q +:+ t -> t <> "" -> startswith (t +:+ sub +:+ r) sub = false) ->
  contains sub p = false.
Proof.
  intros Hsub Hp. destruct (contains sub p) eqn:E; [| reflexivity].
  apply contains_first in E as (q & t & -> & _).
  specialize (Hp q (sub +:+ t) eq_refl).
  rewrite append_assoc, startswith_app in Hp. apply Hp.
  destruct sub; [congruence | discriminate].
Qed.

Lemma split_from_nonempty (sep s : string) (skip : nat) (cur : string) :
  split_from sep s skip cur <> [].
Proof.
  revert skip cur. induction s as [|c s IH]; intros skip cur; simpl; [discriminate |].
  destruct skip; [| apply IH].
  destruct (startswith (String c s) sep); [discriminate | apply IH].
Qed.

(** Dropping the rest of a separator that has been recognised. *)
Lemma split_from_skip (sep a r cur : string) :
  split_from sep (a +:+ r) (String.length a) cur = split_from sep r 0 cur.
Proof. induction a as [|c a IH]; simpl; [reflexivity | exact IH]. Qed.

Lemma split_from_sep (sep r cur : string) :
  sep <> "" ->
  split_from sep (sep +:+ r) 0 cur = cur :: split_from sep r 0 "".
Proof.
  intros Hsep. destruct sep as [|c sep]; [congruence |].
  change (String c sep +:+ r) with (String c (sep +:+ r)).
  cbn [split_from].
  change (String c (sep +:+ r)) with (String c sep +:+ r).
  rewrite startswith_app.
  replace (String.length (String c sep) - 1) with (String.length sep)
    by (cbn [String.length]; lia).
  now rewrite split_from_skip.
Qed.

Lemma split_from_none (sep s cur : string) :
  contains sep s = false -> split_from sep s 0 cur = [cur +:+ s].
Proof.
  revert cur. induction s as [|c s IH]; intros cur; simpl.
  - intros _. now rewrite append_nil_r.
  - intros [-> Hs]%orb_false_iff. rewrite (IH _ Hs).
    now rewrite append_assoc.
Qed.

(** Up to the leftmost separator the scan only accumulates. *)
Lemma split_from_first (sep p r cur : string) :
  sep <> "" ->
  (forall q t, p = q +:+ t -> t <> "" -> startswith (t +:+ sep +:+ r) sep = false) ->
  split_from sep (p +:+ sep +:+ r) 0 cur = (cur +:+ p) :: split_from sep r 0 "".
Proof.
  intros Hsep. revert cur. induction p as [|c p IH]; intros cur Hp.
  - change ("" +:+ sep +:+ r) with (sep +:+ r).
    rewrite append_nil_r. now apply split_from_sep.
  - change (String c p +:+ sep +:+ r) with (String c (p +:+ sep +:+ r)).
    cbn [split_from].
    change (String c (p +:+ sep +:+ r)) with (String c p +:+ sep +:+ r).
    rewrite (Hp "" (String c p) eq_refl) by discriminate.
    rewrite IH.
    + now rewrite append_assoc.
    + intros q t -> Ht. now apply (Hp (String c q) t).
Qed.

Lemma split_from_some (sep s cur : string) :
  sep <> "" -> contains sep s = true ->
  exists a b l, split_from sep s 0 cur = a :: b :: l.
Proof.
  intros Hsep (p & r & -> & Hp)%contains_first.
  rewrite (split_from_first sep p r cur Hsep Hp).
  destruct (split_from sep r 0 "") as [|b l] eqn:E.
  - now apply split_from_nonempty in E.
  - now exists (cur +:+ p), b, l.
Qed.

(** No occurrence of the protocol separator straddles the end of a
    string that does not contain it. *)
Lemma sep_first_at (p r : string) :
  contains "://" p = false ->
  forall q t, p = q +:+ t -> t <> "" -> startswith (t +:+ "://" +:+ r) "://" = false.
Proof.
  intros Hp q t -> Ht.
  apply contains_suffix_false, contains_head_false in Hp.
  destruct t as [|c [|d [|e t]]]; [congruence | | |];
    cbn [String.append] in *; rewrite ?startswith_cons in *.
  - destruct (Ascii.eqb ":" c); reflexivity.
  - destruct (Ascii.eqb ":" c); [| reflexivity].
    destruct (Ascii.eqb "/" d); reflexivity.
  - destruct (Ascii.eqb ":" c); [| reflexivity].
    destruct (Ascii.eqb "/" d); [| reflexivity].
    destruct (Ascii.eqb "/" e); [discriminate | reflexivity].
Qed.

Lemma sep_nonempty : "://" <> "".
Proof. discriminate. Qed.

Lemma split_sep_none (s : string) :
  contains "://" s = false -> split s "://" = [s].
Proof. intros Hs. unfold split. now rewrite split_from_none. Qed.

Lemma split_sep_one (p r : string) :
  contains "://" p = false -> contains "://" r = false ->
  split (p +:+ "://" +:+ r) "://" = [p; r].
Proof.
  intros Hp Hr. unfold split.
  rewrite (split_from_first "://" p r "" sep_nonempty (sep_first_at p r Hp)).
  now rewrite split_from_none.
Qed.

Lemma split_sep_many (p r : string) :
  contains "://" p = false -> contains "://" r = true ->
  exists a b l, split (p +:+ "://" +:+ r) "://" = p :: a :: b :: l.
Proof.
  intros Hp Hr. unfold split.
  rewrite (split_from_first "://" p r "" sep_nonempty (sep_first_at p r Hp)).
  destruct (split_from_some "://" r "" sep_nonempty Hr) as (a & b & l & ->).
  now exists a, b, l.
Qed.

(** Every string either has no separator or splits at its first one. *)
Lemma sep_cases (s : string) :
  contains "://" s = false \/
  exists p r, s = p +:+ "://" +:+ r /\ contains "://" p = false.
Proof.
  destruct (contains "://" s) eqn:E; [right | now left].
  apply contains_first in E as (p & r & -> & Hp).
  exists p, r. split; [reflexivity |].
  now apply (first_at_contains "://" p r sep_nonempty).
Qed.

End PyStrFacts.

(** * Facts about the matcher *)

Module ReFacts.
Import PyStr PyStrFacts Re.

Lemma length_app (a b : string) :
  String.length (a +:+ b) = String.length a + String.length b.
Proof. induction a as [|c a IH]; simpl; [reflexivity | now rewrite IH]. Qed.

Lemma take_app (a b : string) : take (String.length a) (a +:+ b) = a.
Proof. induction a as [|c a IH]; simpl; [now destruct b | now rewrite IH]. Qed.

Lemma take_all (a : string) : take (String.length a) a = a.
Proof. induction a as [|c a IH]; simpl; [reflexivity | now rewrite IH]. Qed.

(** The text a group has consumed. *)
Lemma take_consumed (a b : string) :
  take (String.length (a +:+ b) - String.length b) (a +:+ b) = a.
Proof.
  rewrite length_app.
  replace (String.length a + String.length b - String.length b)
    with (String.length a) by lia.
  apply take_app.
Qed.

(** A lazy run whose continuation rejects every earlier stop ends
    where the class ends. *)
Lemma lazy_plus_run (p : ascii -> bool) (d rest : string) (caps : captures) (k : cont) :
  (forall c s, p c = true -> k (String c s) caps = None) ->
  d <> "" -> forallb p d = true -> stops p rest = true ->
  lazy_plus p (d +:+ rest) caps k = k rest caps.
Proof.
  intros Hk. induction d as [|c d IH]; [congruence |].
  intros _ Hd Hrest. cbn [forallb] in Hd. apply andb_true_iff in Hd as [Hc Hd].
  cbn [String.append lazy_plus]. rewrite Hc.
  destruct d as [|c' d].
  - cbn [String.append]. destruct (k rest caps) eqn:E; [reflexivity |].
    destruct rest as [|x rest]; [reflexivity |].
    cbn [lazy_plus]. cbn in Hrest. now destruct (p x).
  - cbn [forallb] in Hd. apply andb_true_iff in Hd as [Hc' Hd].
    cbn [String.append]. rewrite (Hk c' _ Hc').
    apply IH; [discriminate | | assumption].
    cbn [forallb]. now rewrite Hc', Hd.
Qed.

Lemma lazy_plus_inv (p : ascii -> bool) (s : string) (caps m : captures) (k : cont) :
  lazy_plus p s caps k = Some m ->
  exists d s', s = d +:+ s' /\ d <> "" /\ forallb p d = true /\ k s' caps = Some m.
Proof.
  induction s as [|c s IH]; cbn [lazy_plus]; [discriminate |].
  destruct (p c) eqn:Hc; [| discriminate].
  destruct (k s caps) as [r|] eqn:E.
  - intros [= ->]. exists (String c ""), s.
    repeat split; [discriminate | cbn; now rewrite Hc | assumption].
  - intros (d & s' & -> & _ & Hd & Hk)%IH.
    exists (String c d), s'.
    repeat split; [discriminate | cbn; now rewrite Hc, Hd | assumption].
Qed.

(** A greedy run over the whole class succeeds at its far end as soon
    as the continuation accepts there. *)
Lemma greedy_star_run (p : ascii -> bool) (d rest : string) (caps r : captures) (k : cont) :
  forallb p d = true -> stops p rest = true ->
  k rest caps = Some r ->
  greedy_star p (d +:+ rest) caps k = Some r.
Proof.
  intros Hd Hrest Hk. induction d as [|c d IH].
  - cbn [String.append]. destruct rest as [|x rest]; cbn [greedy_star]; [assumption |].
    cbn in Hrest. now destruct (p x).
  - cbn [forallb] in Hd. apply andb_true_iff in Hd as [Hc Hd].
    cbn [String.append greedy_star]. now rewrite Hc, (IH Hd).
Qed.

Lemma greedy_star_inv (p : ascii -> bool) (s : string) (caps m : captures) (k : cont) :
  greedy_star p s caps k = Some m ->
  exists d s', s = d +:+ s' /\ forallb p d = true /\ k s' caps = Some m.
Proof.
  induction s as [|c s IH]; cbn [greedy_star].
  - intros Hk. now exists "", "".
  - destruct (p c) eqn:Hc.
    + destruct (greedy_star p s caps k) as [r|] eqn:E.
      * intros [= ->]. destruct (IH eq_refl) as (d & s' & -> & Hd & Hk).
        exists (String c d), s'. repeat split; [cbn; now rewrite Hc, Hd | assumption].
      * intros Hk. now exists "", (String c s).
    + intros Hk. now exists "", (String c s).
Qed.

(** A greedy run at a character outside the class takes nothing. *)
Lemma greedy_star_stop (p : ascii -> bool) (s : string) (caps : captures) (k : cont) :
  stops p s = true -> greedy_star p s caps k = k s caps.
Proof.
  destruct s as [|c s]; cbn [greedy_star stops]; [reflexivity |].
  now destruct (p c).
Qed.

End ReFacts.

(** * The address parser *)

Module ParserFacts.
Import PyStr PyStrFacts Re ReFacts.

Lemma supported_no_sep (proto : string) :
  str_in proto SUPPORTED_REMOTE_FSSPEC_PROTOCOLS = true ->
  contains "://" proto = false.
Proof.
  unfold str_in, SUPPORTED_REMOTE_FSSPEC_PROTOCOLS. cbn [existsb].
  rewrite !orb_true_iff, !String.eqb_eq.
  intros Hin. repeat (destruct Hin as [-> | Hin]; [reflexivity |]). discriminate.
Qed.

Lemma newline_is_space (c : ascii) :
  Ascii.eqb c "010" = true -> isspace c = true.
Proof. now intros ->%Ascii.eqb_eq. Qed.

Lemma slash_not_space (c : ascii) : is_slash c = true -> isspace c = false.
Proof. unfold is_slash. now intros ->%Ascii.eqb_eq. Qed.

Lemma slashes_stop (sl : string) :
  forallb is_slash sl = true -> stops not_slash_or_space sl = true.
Proof.
  destruct sl as [|c sl]; cbn; [reflexivity |].
  intros [Hc _]%andb_true_iff. unfold not_slash_or_space. now rewrite Hc.
Qed.

(** The first pattern matches exactly the strings that go on, after the
    protocol and the separator, with one whitespace character and a
    slash. *)
Lemma re_dropbox_root_match (proto rest : string) (w : ascii) :
  isspace w = true ->
  re_match (re_dropbox_root proto) (proto +:+ "://" +:+ String w ("/" +:+ rest))
  = Some [(1, String w "")].
Proof.
  intros Hw. unfold re_match, re_dropbox_root. cbn [exec].
  rewrite !strip_prefix_app. rewrite Hw.
  change (String w ("/" +:+ rest)) with (String w "" +:+ ("/" +:+ rest)).
  now rewrite take_consumed.
Qed.

Lemma re_dropbox_root_inv (proto s : string) (m : captures) :
  re_match (re_dropbox_root proto) s = Some m ->
  exists w rest, s = proto +:+ "://" +:+ String w ("/" +:+ rest) /\ isspace w = true.
Proof.
  unfold re_match, re_dropbox_root. cbn [exec].
  destruct (strip_prefix proto s) as [s1|] eqn:E1; [| discriminate].
  apply strip_prefix_inv in E1 as ->.
  destruct (strip_prefix "://" s1) as [s2|] eqn:E2; [| discriminate].
  apply strip_prefix_inv in E2 as ->.
  destruct s2 as [|w s2]; [discriminate |].
  destruct (isspace w) eqn:Hw; [| discriminate].
  destruct (strip_prefix "/" s2) as [s3|] eqn:E3; [| discriminate].
  apply strip_prefix_inv in E3 as ->.
  intros _. now exists w, s3.
Qed.

Lemma re_dropbox_root_none (proto rest : string) (c : ascii) :
  isspace c = false ->
  re_match (re_dropbox_root proto) (proto +:+ "://" +:+ String c rest) = None.
Proof.
  intros Hc. unfold re_match, re_dropbox_root. cbn [exec].
  rewrite !strip_prefix_app. now rewrite Hc.
Qed.

(** The second pattern on a directory name followed by slashes. *)
Lemma re_dir_only_match (proto d sl : string) :
  d <> "" -> forallb not_slash_or_space d = true -> forallb is_slash sl = true ->
  re_match (re_dir_only proto) (proto +:+ "://" +:+ d +:+ sl)
  = Some [(2, sl); (1, d)].
Proof.
  intros Hd Hall Hsl. unfold re_match, re_dir_only. cbn [exec].
  rewrite !strip_prefix_app.
  rewrite lazy_plus_run; [| | assumption | assumption | now apply slashes_stop].
  - rewrite take_consumed.
    rewrite <- (append_nil_r sl) at 1.
    erewrite greedy_star_run; [reflexivity | assumption | reflexivity |].
    cbn [at_end String.length]. now rewrite Nat.sub_0_r, take_all.
  - intros c s Hc. apply andb_true_iff in Hc as [Hc1 Hc2].
    rewrite greedy_star_stop by (cbn; now rewrite (proj1 (negb_true_iff _) Hc1)).
    destruct s as [|x s]; cbn [at_end]; [| reflexivity].
    destruct (Ascii.eqb c "010") eqn:E; [| reflexivity].
    apply newline_is_space in E. now rewrite E in Hc2.
Qed.

Lemma re_dir_only_inv (proto s : string) (m : captures) :
  re_match (re_dir_only proto) s = Some m ->
  group 1 m <> "" /\ forallb not_slash_or_space (group 1 m) = true.
Proof.
  unfold re_match, re_dir_only. cbn [exec].
  destruct (strip_prefix proto s) as [s1|]; [| discriminate].
  destruct (strip_prefix "://" s1) as [s2|]; [| discriminate].
  intros (d & s3 & -> & Hd & Hall & Hk)%lazy_plus_inv.
  rewrite take_consumed in Hk.
  apply greedy_star_inv in Hk as (sl & s4 & -> & Hsl & Hk).
  destruct (at_end s4); [| discriminate].
  injection Hk as <-. now split.
Qed.

Lemma re_dir_and_file_inv (proto s : string) (m : captures) :
  re_match (re_dir_and_file proto) s = Some m ->
  group 1 m <> "" /\ forallb not_slash_or_space (group 1 m) = true.
Proof.
  unfold re_match, re_dir_and_file. cbn [exec].
  destruct (strip_prefix proto s) as [s1|]; [| discriminate].
  destruct (strip_prefix "://" s1) as [s2|]; [| discriminate].
  intros (d & s3 & -> & Hd & Hall & Hk)%lazy_plus_inv.
  rewrite take_consumed in Hk.
  destruct (strip_prefix "/" s3) as [s4|]; [| discriminate].
  apply greedy_star_inv in Hk as (f & s5 & -> & Hf & Hk).
  injection Hk as <-. now split.
Qed.

Lemma rstrip_slash_split (r : string) :
  exists sl, r = rstrip_slash r +:+ sl /\ forallb is_slash sl = true.
Proof.
  induction r as [|c r (sl & Hr & Hsl)]; [now exists "" |].
  cbn [rstrip_slash]. destruct (rstrip_slash r) as [|x rs] eqn:E.
  - destruct (is_slash c) eqn:Hc.
    + exists (String c sl). cbn in Hr. subst r. split; [reflexivity |].
      cbn. now rewrite Hc.
    + exists sl. cbn in Hr. now subst r.
  - exists sl. split; [| assumption]. now rewrite Hr at 1.
Qed.

Lemma unpack2_split_one (p r : string) :
  contains "://" p = false -> contains "://" r = false ->
  unpack2 (split (p +:+ "://" +:+ r) "://") = Ok (p, r).
Proof. intros Hp Hr. now rewrite split_sep_one. Qed.

Lemma not_slash_or_space_head (c : ascii) (d : string) :
  forallb not_slash_or_space (String c d) = true -> isspace c = false.
Proof.
  cbn. unfold not_slash_or_space at 1.
  intros [[_ Hc]%andb_true_iff _]%andb_true_iff. now apply negb_true_iff.
Qed.

(** What a completed object records of the split. *)
Lemma post_init_fields (path p r : string) (recur : bool)
    (kw : list (string * string)) (unc : bool) (cfg : SimpleFsspecConfig) :
  unpack2 (split path "://") = Ok (p, r) ->
  __post_init__ path recur kw unc = Ok cfg ->
  protocol cfg = p /\ path_without_protocol cfg = r /\
  str_in p SUPPORTED_REMOTE_FSSPEC_PROTOCOLS = true.
Proof.
  intros Hsplit. unfold __post_init__. rewrite Hsplit.
  destruct (str_in p SUPPORTED_REMOTE_FSSPEC_PROTOCOLS); [| discriminate].
  cbn [negb].
  destruct (matched _ && _); [now intros [= <-] |].
  destruct (re_match (re_dir_only p) _); [now intros [= <-] |].
  destruct (re_match (re_dir_and_file p) _); [now intros [= <-] | discriminate].
Qed.

(** A completed object comes from a path with exactly one separator. *)
Lemma post_init_ok_split (path : string) (recur : bool)
    (kw : list (string * string)) (unc : bool) (cfg : SimpleFsspecConfig) :
  __post_init__ path recur kw unc = Ok cfg ->
  path = protocol cfg +:+ "://" +:+ path_without_protocol cfg /\
  unpack2 (split path "://") = Ok (protocol cfg, path_without_protocol cfg).
Proof.
  intros Hok.
  destruct (sep_cases path) as [Hno | (p & r & -> & Hp)].
  - unfold __post_init__ in Hok. now rewrite split_sep_none in Hok.
  - destruct (contains "://" r) eqn:Hr.
    + unfold __post_init__ in Hok.
      destruct (split_sep_many p r Hp Hr) as (a & b & l & Hs).
      now rewrite Hs in Hok.
    + pose proof (unpack2_split_one p r Hp Hr) as Hs.
      destruct (post_init_fields _ _ _ _ _ _ _ Hs Hok) as (-> & -> & _).
      now split.
Qed.

End ParserFacts.

Section ParserClaims.
Import PyStr PyStrFacts Re ReFacts ParserFacts.

Variables (recur : bool) (kw : list (string * string)) (unc : bool).

(** C7, as amended.  [split] cuts at every separator and the unpacking
    wants exactly two pieces: a path without the separator fails with a
    [ValueError]; a path whose remainder after the first separator holds a
    second one fails with a [ValueError] too; with exactly one separator
    the path is cut into protocol and remainder, and a protocol outside
    the supported list is rejected, all within the pure parser. *)
Theorem split_requires_one_separator (path : string) :
  (contains "://" path = false ->
   __post_init__ path recur kw unc = Raise (ValueError not_enough_msg)) /\
  (forall p r, path = p +:+ "://" +:+ r -> contains "://" p = false ->
     (contains "://" r = true ->
      __post_init__ path recur kw unc = Raise (ValueError too_many_msg)) /\
     (contains "://" r = false ->
      str_in p SUPPORTED_REMOTE_FSSPEC_PROTOCOLS = false ->
      __post_init__ path recur kw unc = Raise (ValueError (unsupported_msg p))) /\
     (contains "://" r = false ->
      forall cfg, __post_init__ path recur kw unc = Ok cfg ->
        protocol cfg = p /\ path_without_protocol cfg = r /\
        str_in p SUPPORTED_REMOTE_FSSPEC_PROTOCOLS = true)).
Proof.
  split.
  - intros Hno. unfold __post_init__. now rewrite split_sep_none.
  - intros p r -> Hp. split; [| split].
    + intros Hr. unfold __post_init__.
      destruct (split_sep_many p r Hp Hr) as (a & b & l & ->).
      reflexivity.
    + intros Hr Hsup. unfold __post_init__.
      rewrite (unpack2_split_one p r Hp Hr). now rewrite Hsup.
    + intros Hr cfg Hok.
      exact (post_init_fields _ _ _ _ _ _ _ (unpack2_split_one p r Hp Hr) Hok).
Qed.

(** C8, as amended.  For a supported protocol and a remainder that,
    without its trailing slashes, is a non-empty run of characters other
    than the slash and whitespace, and that holds no second separator, the
    parser yields that run as the directory path and an empty file path. *)
Theorem root_only_shape (proto r : string) :
  str_in proto SUPPORTED_REMOTE_FSSPEC_PROTOCOLS = true ->
  rstrip_slash r <> "" ->
  forallb not_slash_or_space (rstrip_slash r) = true ->
  contains "://" r = false ->
  __post_init__ (proto +:+ "://" +:+ r) recur kw unc
  = Ok {| path := proto +:+ "://" +:+ r; recursive := recur; access_kwargs := kw;
          protocol := proto; path_without_protocol := r;
          dir_path := rstrip_slash r; file_path := ""; uncompress := unc |}.
Proof.
  intros Hsup Hne Hall Hr.
  destruct (rstrip_slash_split r) as (sl & Hsplit & Hsl).
  unfold __post_init__.
  rewrite (unpack2_split_one proto r (supported_no_sep proto Hsup) Hr).
  rewrite Hsup. cbn [negb].
  destruct (rstrip_slash r) as [|c d] eqn:Ed; [congruence |].
  assert (E1 : re_match (re_dropbox_root proto) (proto +:+ "://" +:+ r) = None).
  { rewrite Hsplit. apply (re_dropbox_root_none proto (d +:+ sl) c).
    exact (not_slash_or_space_head c d Hall). }
  assert (E2 : re_match (re_dir_only proto) (proto +:+ "://" +:+ r)
               = Some [(2, sl); (1, String c d)]).
  { rewrite Hsplit. now apply re_dir_only_match. }
  rewrite E1, E2. reflexivity.
Qed.

(** C5, as amended.  The rootless shape is taken exactly when the
    protocol is dropbox and the remainder begins with one whitespace
    character followed by a slash, whatever comes after: every such path
    with no second separator yields the directory path of one space and
    an empty file path, and a completed object whose directory path is
    one space comes from such a path. *)
Theorem rootless_shape (path : string) :
  (forall w rest, path = "dropbox://" +:+ String w ("/" +:+ rest) ->
     isspace w = true ->
     contains "://" (String w ("/" +:+ rest)) = false ->
     __post_init__ path recur kw unc
     = Ok {| path := path; recursive := recur; access_kwargs := kw;
             protocol := "dropbox"; path_without_protocol := String w ("/" +:+ rest);
             dir_path := " "; file_path := ""; uncompress := unc |}) /\
  (forall cfg, __post_init__ path recur kw unc = Ok cfg ->
     dir_path cfg = " " ->
     protocol cfg = "dropbox" /\ file_path cfg = "" /\
     exists w rest, isspace w = true /\
                    path = "dropbox://" +:+ String w ("/" +:+ rest)).
Proof.
  split.
  - intros w rest -> Hw Hr.
    change ("dropbox://" +:+ String w ("/" +:+ rest))
      with ("dropbox" +:+ "://" +:+ String w ("/" +:+ rest)).
    unfold __post_init__.
    rewrite (unpack2_split_one "dropbox" _ eq_refl Hr).
    rewrite (re_dropbox_root_match "dropbox" rest w Hw).
    reflexivity.
  - intros cfg Hok Hdir.
    destruct (post_init_ok_split _ _ _ _ _ Hok) as [_ Hsplit].
    remember (protocol cfg) as p eqn:Ep.
    remember (path_without_protocol cfg) as r eqn:Er.
    revert Hok. unfold __post_init__. rewrite Hsplit.
    destruct (negb _); [discriminate |].
    destruct (matched _ && _) eqn:E1.
    + apply andb_true_iff in E1 as [Hm Hp].
      apply String.eqb_eq in Hp.
      destruct (re_match _ path) as [m|] eqn:Em; [| discriminate].
      apply re_dropbox_root_inv in Em as (w & rest & Hshape & Hw).
      intros [= <-]. cbn [protocol file_path]. rewrite Hp in Hshape.
      split; [assumption |]. split; [reflexivity |]. now exists w, rest.
    + destruct (re_match (re_dir_only _) path) as [m|] eqn:E2.
      * intros [= <-]. cbn [dir_path] in Hdir.
        apply re_dir_only_inv in E2 as [_ Hall].
        now rewrite Hdir in Hall.
      * destruct (re_match (re_dir_and_file _) path) as [m|] eqn:E3; [| discriminate].
        intros [= <-]. cbn [dir_path] in Hdir.
        apply re_dir_and_file_inv in E3 as [_ Hall].
        now rewrite Hdir in Hall.
Qed.

End ParserClaims.

Lemma split_requires_one_separator_witness :
  (PyStr.contains "://" "bucket/key" = false /\
   __post_init__ "bucket/key" true [] false = Raise (ValueError not_enough_msg)) /\
  (PyStr.contains "://" "ftp" = false /\ PyStr.contains "://" "host/key" = false /\
   str_in "ftp" SUPPORTED_REMOTE_FSSPEC_PROTOCOLS = false /\
   __post_init__ "ftp://host/key" true [] false
   = Raise (ValueError (unsupported_msg "ftp"))) /\
  (PyStr.contains "://" "s3" = false /\ PyStr.contains "://" "b/x://y" = true /\
   __post_init__ "s3://b/x://y" true [] false = Raise (ValueError too_many_msg)) /\
  (forall cfg, __post_init__ "s3://b/x" true [] false = Ok cfg ->
     protocol cfg = "s3" /\ path_without_protocol cfg = "b/x" /\
     str_in "s3" SUPPORTED_REMOTE_FSSPEC_PROTOCOLS = true).
Proof.
  split; [| split; [| split]].
  - split; [reflexivity |].
    apply (proj1 (split_requires_one_separator true [] false "bucket/key")).
    reflexivity.
  - do 3 (split; [reflexivity |]).
    apply (proj2 (split_requires_one_separator true [] false "ftp://host/key")
             "ftp" "host/key" eq_refl eq_refl); reflexivity.
  - do 2 (split; [reflexivity |]).
    apply (proj2 (split_requires_one_separator true [] false "s3://b/x://y")
             "s3" "b/x://y" eq_refl eq_refl); reflexivity.
  - apply (proj2 (split_requires_one_separator true [] false "s3://b/x")
             "s3" "b/x" eq_refl eq_refl); reflexivity.
Defined.

(** C7 as stated fails: with a second separator in the remainder the
    parser does not cut at the first one, it raises. *)
Lemma split_at_first_separator_counterexample :
  PyStr.contains "://" "s3" = false /\
  PyStr.contains "://" "bucket/a://b" = true /\
  __post_init__ ("s3" +:+ "://" +:+ "bucket/a://b") false [] false
  = Raise (ValueError too_many_msg) /\
  ~ (exists cfg, __post_init__ "s3://bucket/a://b" false [] false = Ok cfg /\
                 protocol cfg = "s3" /\ path_without_protocol cfg = "bucket/a://b").
Proof.
  do 3 (split; [reflexivity |]).
  intros (cfg & Hok & _). discriminate Hok.
Qed.

Lemma root_only_shape_witness :
  str_in "gs" SUPPORTED_REMOTE_FSSPEC_PROTOCOLS = true /\
  PyStr.rstrip_slash "my-bucket//" = "my-bucket" /\
  __post_init__ "gs://my-bucket//" false [] true
  = Ok {| path := "gs://my-bucket//"; recursive := false; access_kwargs := [];
          protocol := "gs"; path_without_protocol := "my-bucket//";
          dir_path := "my-bucket"; file_path := ""; uncompress := true |}.
Proof.
  do 2 (split; [reflexivity |]).
  apply (root_only_shape false [] true "gs" "my-bucket//");
    [reflexivity | discriminate | reflexivity | reflexivity].
Defined.

(** C8 as stated fails: a remainder without a slash but with a blank in
    it is rejected, it is not taken as the directory path. *)
Lemma root_only_with_whitespace_counterexample :
  str_in "s3" SUPPORTED_REMOTE_FSSPEC_PROTOCOLS = true /\
  PyStr.contains "/" "my bucket" = false /\
  __post_init__ ("s3" +:+ "://" +:+ "my bucket") false [] false
  = Raise (ValueError (invalid_path_msg "s3://my bucket")).
Proof. do 2 (split; [reflexivity |]). reflexivity. Qed.

Lemma rootless_shape_witness :
  PyStr.isspace " " = true /\
  __post_init__ "dropbox:// /" false [] false
  = Ok {| path := "dropbox:// /"; recursive := false; access_kwargs := [];
          protocol := "dropbox"; path_without_protocol := " /";
          dir_path := " "; file_path := ""; uncompress := false |} /\
  exists w rest, PyStr.isspace w = true /\
                 "dropbox:// /x" = "dropbox://" +:+ String w ("/" +:+ rest).
Proof.
  split; [reflexivity |]. split.
  - apply (proj1 (rootless_shape false [] false "dropbox:// /") " "%char "");
      reflexivity.
  - apply (proj2 (rootless_shape false [] false "dropbox:// /x")
             {| path := "dropbox:// /x"; recursive := false; access_kwargs := [];
                protocol := "dropbox"; path_without_protocol := " /x";
                dir_path := " "; file_path := ""; uncompress := false |}
             eq_refl eq_refl).
Defined.

(** C5 as stated fails twice: the address with two blanks is rejected,
    and an address that goes on after the blank and the slash is taken as
    rootless all the same. *)
Lemma rootless_shape_counterexample :
  __post_init__ "dropbox://  /" false [] false
  = Raise (ValueError (invalid_path_msg "dropbox://  /")) /\
  " /reports/q1.pdf" <> " /" /\
  __post_init__ "dropbox:// /reports/q1.pdf" false [] false
  = Ok {| path := "dropbox:// /reports/q1.pdf"; recursive := false;
          access_kwargs := []; protocol := "dropbox";
          path_without_protocol := " /reports/q1.pdf";
          dir_path := " "; file_path := ""; uncompress := false |}.
Proof. split; [reflexivity |]. split; [discriminate | reflexivity]. Qed.

(** * The corpus lister *)

Section ListerFacts.
Context {A B : Type} (f : A -> B) (size : A -> pyval).

(** Where every size is an integer the comprehension is a filter
    followed by a map. *)
Lemma comprehension_filter (l : list A) :
  Forall (fun x => exists n, size x = PyInt n) l ->
  comprehension f (fun x => gt_zero (size x)) l
  = Ok (map f (List.filter
                 (fun x => match size x with PyInt n => (0 <? n)%Z | _ => false end) l)).
Proof.
  induction 1 as [|x l [n Hx] _ IH]; cbn [comprehension List.filter map]; [reflexivity |].
  rewrite Hx, IH. cbn [gt_zero]. now destruct (0 <? n)%Z.
Qed.

(** The condition raises nothing but a [TypeError]. *)
Lemma comprehension_raises (l : list A) (e : exn) :
  comprehension f (fun x => gt_zero (size x)) l = Raise e ->
  exists msg, e = TypeError msg.
Proof.
  induction l as [|x l IH]; cbn [comprehension]; [discriminate |].
  destruct (size x) as [|n|s]; cbn [gt_zero].
  - intros [= <-]. eauto.
  - destruct (comprehension _ _ l); [discriminate |]. intros [= <-]. now apply IH.
  - intros [= <-]. eauto.
Qed.

(** It returns only where every size is an integer. *)
Lemma comprehension_returns (l : list A) (r : list B) :
  comprehension f (fun x => gt_zero (size x)) l = Ok r ->
  Forall (fun x => exists n, size x = PyInt n) l.
Proof.
  revert r. induction l as [|x l IH]; intros r; cbn [comprehension]; [constructor |].
  destruct (size x) as [|n|s] eqn:Hx; cbn [gt_zero]; try discriminate.
  destruct (comprehension _ _ l) as [r'|] eqn:E; [| discriminate].
  intros _. constructor; [now exists n | now apply (IH r')].
Qed.

Lemma comprehension_none_size (l : list A) :
  (exists x, In x l /\ size x = PyNone) ->
  exists msg, comprehension f (fun x => gt_zero (size x)) l = Raise (TypeError msg).
Proof.
  intros (x & Hin & Hx).
  destruct (comprehension f (fun x => gt_zero (size x)) l) as [r|e] eqn:E.
  - apply comprehension_returns in E.
    destruct (proj1 (List.Forall_forall _ _) E x Hin) as [n Hn]. congruence.
  - destruct (comprehension_raises l e E) as [msg ->]. now exists msg.
Qed.

Lemma filter_all_zero (l : list A) :
  Forall (fun x => size x = PyInt 0) l ->
  List.filter (fun x => match size x with PyInt n => (0 <? n)%Z | _ => false end) l = [].
Proof.
  induction 1 as [|x l Hx _ IH]; cbn [List.filter]; [reflexivity |].
  now rewrite Hx, IH.
Qed.

End ListerFacts.

Lemma dict_get_missing (x : gmap string pyval) (key : string) :
  x !! key = None -> dict_get x key = PyNone.
Proof. unfold dict_get. now intros ->. Qed.

Section ListerClaims.
Context {FS : Type} `{AbstractFileSystem FS}.
Variable Child : Type.
Variable self : FsspecConnector FS.

Local Abbreviation pwp := (path_without_protocol (connector_config self)).

(** C6.  In both modes the lister keeps exactly the entries whose
    reported size is above zero: where the sizes are integers, the result
    is the names of the entries that pass the filter, in listing order. *)
Theorem list_files_keeps_positive_sizes :
  (forall entries,
     recursive (connector_config self) = false ->
     fs_ls (fs self) pwp = Ok entries ->
     Forall int_size entries ->
     _list_files self
     = Ok (map (fun x => dict_get x "name") (List.filter size_positive entries))) /\
  (forall items,
     recursive (connector_config self) = true ->
     fs_find (fs self) pwp = Ok items ->
     Forall (fun kv => int_size (snd kv)) items ->
     _list_files self
     = Ok (map (fun kv => PyStr (fst kv))
             (List.filter (fun kv => size_positive (snd kv)) items))).
Proof.
  split.
  - intros entries Hrec Hls Hall. unfold _list_files. rewrite Hrec, Hls. cbn [negb].
    exact (comprehension_filter _ (fun x => dict_get x "size") entries Hall).
  - intros items Hrec Hfind Hall. unfold _list_files. rewrite Hrec, Hfind. cbn [negb].
    exact (comprehension_filter _ (fun kv => dict_get (snd kv) "size") items Hall).
Qed.

(** C10.  The filter compares the size with zero: an entry without the
    size key makes the listing raise a [TypeError], in both modes, and the
    listing returns only where every entry reports an integer size. *)
Theorem list_files_needs_sizes :
  (forall entries,
     recursive (connector_config self) = false ->
     fs_ls (fs self) pwp = Ok entries ->
     ((exists x, In x entries /\ x !! "size" = None) ->
      exists msg, _list_files self = Raise (TypeError msg)) /\
     (forall r, _list_files self = Ok r -> Forall int_size entries)) /\
  (forall items,
     recursive (connector_config self) = true ->
     fs_find (fs self) pwp = Ok items ->
     ((exists kv, In kv items /\ snd kv !! "size" = None) ->
      exists msg, _list_files self = Raise (TypeError msg)) /\
     (forall r, _list_files self = Ok r -> Forall (fun kv => int_size (snd kv)) items)).
Proof.
  split.
  - intros entries Hrec Hls. unfold _list_files. rewrite Hrec, Hls. cbn [negb]. split.
    + intros (x & Hin & Hx).
      apply (comprehension_none_size _ (fun x => dict_get x "size")).
      exists x. split; [assumption | now apply dict_get_missing].
    + intros r. exact (comprehension_returns _ (fun x => dict_get x "size") entries r).
  - intros items Hrec Hfind. unfold _list_files. rewrite Hrec, Hfind. cbn [negb]. split.
    + intros (kv & Hin & Hx).
      apply (comprehension_none_size _ (fun kv => dict_get (snd kv) "size")).
      exists kv. split; [assumption | now apply dict_get_missing].
    + intros r.
      exact (comprehension_returns _ (fun kv => dict_get (snd kv) "size") items r).
Qed.

(** C1, as amended.  Initialization fails with a [ValueError] exactly
    when the unfiltered listing of the path is empty.  Where the listing
    is not empty and every entry has size zero, initialization succeeds
    and the document list is empty; no error is raised for it. *)
Theorem initialize_checks_unfiltered_listing (entries : list (gmap string pyval)) :
  fs_ls (fs self) pwp = Ok entries ->
  (entries = [] <->
   initialize self = Raise (ValueError (no_objects_msg (path (connector_config self))))) /\
  (entries <> [] <-> initialize self = Ok tt) /\
  (recursive (connector_config self) = false ->
   Forall (fun x => dict_get x "size" = PyInt 0) entries ->
   get_ingest_docs (Child := Child) self = Ok []) /\
  (forall items,
     recursive (connector_config self) = true ->
     fs_find (fs self) pwp = Ok items ->
     Forall (fun kv => dict_get (snd kv) "size" = PyInt 0) items ->
     get_ingest_docs (Child := Child) self = Ok []).
Proof.
  intros Hls. unfold initialize, get_ingest_docs, _list_files. rewrite Hls.
  split; [| split; [| split]].
  - destruct entries; cbn; split; congruence.
  - destruct entries; cbn; split; congruence.
  - intros Hrec Hzero. rewrite Hrec. cbn [negb].
    rewrite (comprehension_filter _ (fun x => dict_get x "size")).
    + now rewrite (filter_all_zero (fun x => dict_get x "size")).
    + eapply List.Forall_impl; [| exact Hzero]. intros x Hx. now exists 0%Z.
  - intros items Hrec Hfind Hzero. rewrite Hrec, Hfind. cbn [negb].
    rewrite (comprehension_filter _ (fun kv => dict_get (snd kv) "size")).
    + now rewrite (filter_all_zero (fun kv => dict_get (snd kv) "size")).
    + eapply List.Forall_impl; [| exact Hzero]. intros x Hx. now exists 0%Z.
Qed.

End ListerClaims.

(** * The document lifecycle *)

Section IngestDocFacts.
Context {H Child Elements : Type} `{Host H Child Elements}.

Local Abbreviation State := (St H Child).

Lemma on_host_run {A : Type} (op : H -> H * result A) (st : State) (h : H) (r : result A) :
  op (host st) = (h, r) ->
  on_host op st = ({| host := h; self := self st; trace := trace st |}, r).
Proof. unfold on_host. now intros ->. Qed.

Lemma fetch_calls_app (t u : list Event) :
  fetch_calls (t ++ u) = fetch_calls t ++ fetch_calls u.
Proof. unfold fetch_calls. apply flat_map_app. Qed.

Lemma quiet_ret {A : Type} (a : A) : quiet (ret (S := State) a).
Proof. now intros st. Qed.

Lemma quiet_raise {A : Type} (e : exn) : quiet (raise (S := State) (A := A) e).
Proof. now intros st. Qed.

Lemma quiet_lift {A : Type} (r : result A) : quiet (lift (H := H) (Child := Child) r).
Proof. now intros st. Qed.

Lemma quiet_get_self : quiet (get_self (H := H) (Child := Child)).
Proof. now intros st. Qed.

Lemma quiet_ask_host {A : Type} (q : H -> A) : quiet (ask_host (Child := Child) q).
Proof. now intros st. Qed.

Lemma quiet_on_host {A : Type} (op : H -> H * result A) : quiet (on_host (Child := Child) op).
Proof. intros st. unfold on_host. now destruct (op (host st)). Qed.

Lemma quiet_emit_log (level : Level) (msg : string) :
  quiet (emit (H := H) (Child := Child) (Log level msg)).
Proof.
  intros st. cbn. rewrite fetch_calls_app. cbn. now rewrite app_nil_r.
Qed.

Lemma quiet_set_is_compressed : quiet (set_is_compressed (H := H) (Child := Child)).
Proof. now intros st. Qed.

Lemma quiet_children_extend (docs : list Child) :
  quiet (children_extend (H := H) docs).
Proof. now intros st. Qed.

Lemma quiet_bind {A B : Type} (m : M State A) (k : A -> M State B) :
  quiet m -> (forall a, quiet (k a)) -> quiet (bind m k).
Proof.
  intros Hm Hk st. specialize (Hm st). unfold bind.
  destruct (m st) as [st' [a|e]]; cbn [fst] in *; [| exact Hm].
  destruct Hm as (<- & <- & <- & <-). apply Hk.
Qed.

Lemma quiet_try_except {A : Type} (m : M State A) (catches : exn -> bool)
    (h : exn -> M State A) :
  quiet m -> (forall e, quiet (h e)) -> quiet (try_except m catches h).
Proof.
  intros Hm Hh st. specialize (Hm st). unfold try_except.
  destruct (m st) as [st' [a|e]]; cbn [fst] in *; [exact Hm |].
  destruct (catches e); [| exact Hm].
  destruct Hm as (<- & <- & <- & <-). apply Hh.
Qed.

Lemma quiet_when (b : bool) (m : M State unit) : quiet m -> quiet (when b m).
Proof. intros Hm. destruct b; [exact Hm | apply quiet_ret]. Qed.

Lemma quiet_if {A : Type} (b : bool) (m1 m2 : M State A) :
  quiet m1 -> quiet m2 -> quiet (if b then m1 else m2).
Proof. now destruct b. Qed.

Create HintDb quiet.
#[local] Hint Resolve quiet_ret quiet_raise quiet_lift quiet_get_self quiet_ask_host
  quiet_on_host quiet_emit_log quiet_set_is_compressed quiet_children_extend
  quiet_bind quiet_try_except quiet_when quiet_if : quiet.

Lemma quiet_local_docs (input_path : string) : quiet (local_docs input_path).
Proof. unfold local_docs. auto with quiet. Qed.

#[local] Hint Resolve quiet_local_docs : quiet.

Lemma quiet_process_zip (zip_path : string) : quiet (process_zip zip_path).
Proof. unfold process_zip. auto 10 with quiet. Qed.

Lemma quiet_process_tar (tar_path : string) : quiet (process_tar tar_path).
Proof. unfold process_tar. auto 12 with quiet. Qed.

#[local] Hint Resolve quiet_process_zip quiet_process_tar : quiet.

(** Running a method along the outcomes given as hypotheses. *)
Ltac run_known :=
  repeat (cbn [host self trace config standard_config remote_file_path];
          match goal with
          | Hrun : _ = _ |- _ => rewrite Hrun
          end).

(** C2.  A document marked as an archive is never handed on: processing
    and writing only log a warning and return nothing, the host is left as
    it was; the inherited steps run for the other documents only. *)
Theorem archives_skip_processing (st : State) (f : Path) :
  filename (self st) = Ok f ->
  (is_compressed (self st) = true ->
   process_file st
   = ({| host := host st; self := self st;
         trace := trace st ++
           [Log WARNING ("file detected as zip, skipping process file: " +:+ as_posix f)] |},
      Ok None) /\
   write_result st
   = ({| host := host st; self := self st;
         trace := trace st ++
           [Log WARNING ("file detected as zip, skipping write results: " +:+ as_posix f)] |},
      Ok tt)) /\
  (is_compressed (self st) = false ->
   process_file st = on_host (super_process_file (self st)) st /\
   write_result st = on_host (super_write_result (self st)) st).
Proof.
  intros Hf. split; intros Hc.
  - unfold process_file, write_result, bind, get_self, lift, emit, ret.
    rewrite Hc, Hf. now split.
  - unfold process_file, write_result, bind, get_self.
    rewrite Hc. now split.
Qed.

(** C3.  A [ReadError] of the tar extraction is logged and [process_tar]
    returns with the document as it was; whatever the zip extraction
    raises leaves [process_zip], and leaves [get_file] with it. *)
Theorem archive_errors_asymmetric (st : State) :
  (forall tar_path h' msg,
     tar_extractall tar_path (uncompressed_dir tar_path "-tar-uncompressed") (host st)
     = (h', Raise (ReadError msg)) ->
     process_tar tar_path st
     = ({| host := h'; self := self st;
           trace := (trace st ++
             [Log INFO ("extracting tar " +:+ tar_path +:+ " -> "
                        +:+ uncompressed_dir tar_path "-tar-uncompressed")]) ++
             [Log ERROR ("failed to uncompress tar " +:+ tar_path +:+ ": " +:+ msg)] |},
        Ok tt)) /\
  (forall zip_path h' e,
     zip_extractall zip_path (uncompressed_dir zip_path "-zip-uncompressed") (host st)
     = (h', Raise e) ->
     process_zip zip_path st
     = ({| host := h'; self := self st;
           trace := trace st ++
             [Log INFO ("extracting zip " +:+ zip_path +:+ " -> "
                        +:+ uncompressed_dir zip_path "-zip-uncompressed")] |},
        Raise e)) /\
  (forall f h1 h2 h3 e,
     filename (self st) = Ok f ->
     path_is_file (as_posix f) (host st) = false ->
     mkdir_parents (as_posix (parent f)) (host st) = (h1, Ok tt) ->
     get_filesystem_class (protocol (config (self st)))
       (access_kwargs (config (self st))) h1 = Ok tt ->
     fs_get (protocol (config (self st))) (access_kwargs (config (self st)))
       (remote_file_path (self st)) (as_posix f) h1 = (h2, Ok tt) ->
     is_zipfile (as_posix f) h2 = true ->
     uncompress (config (self st)) = true ->
     zip_extractall (as_posix f) (uncompressed_dir (as_posix f) "-zip-uncompressed") h2
     = (h3, Raise e) ->
     snd (get_file st) = Raise e /\
     children (self (fst (get_file st))) = children (self st) /\
     is_compressed (self (fst (get_file st))) = true).
Proof.
  split; [| split].
  - intros tar_path h' msg Htar.
    unfold process_tar, try_except, bind, emit, on_host, ret. cbn.
    rewrite Htar. reflexivity.
  - intros zip_path h' e Hzip.
    unfold process_zip, bind, emit, on_host. cbn.
    rewrite Hzip. reflexivity.
  - intros f h1 h2 h3 e Hf Hnew Hmk Hfs Hget Hz Hun Hzip.
    unfold filename in Hf.
    unfold get_file, skip_if_file_exists, get_file_body, _create_full_tmp_dir_path,
      process_zip, when, filename, bind, get_self, lift, ask_host, on_host, emit,
      set_is_compressed, ret.
    run_known. cbn. repeat split.
Qed.

Lemma filename_identity (d d' : FsspecIngestDoc Child) :
  standard_config d = standard_config d' -> config d = config d' ->
  remote_file_path d = remote_file_path d' ->
  filename d = filename d'.
Proof.
  intros Hs Hc Hr. unfold filename, _tmp_download_file, relative_key.
  now rewrite Hs, Hc, Hr.
Qed.

(** What is left of [get_file] once the remote filesystem has been asked
    for the file. *)
Lemma get_file_body_fetch (st : State) (f : Path) (h1 : H) :
  filename (self st) = Ok f ->
  mkdir_parents (as_posix (parent f)) (host st) = (h1, Ok tt) ->
  get_filesystem_class (protocol (config (self st)))
    (access_kwargs (config (self st))) h1 = Ok tt ->
  exists after : M State unit,
    quiet after /\
    get_file_body st
    = after {| host := h1; self := self st;
               trace := (trace st ++ [Log DEBUG (fetching_msg (self st) h1)]) ++
                          [FsGet (remote_file_path (self st)) (as_posix f)] |}.
Proof.
  intros Hf Hmk Hfs. unfold filename in Hf.
  exists (on_host (fs_get (protocol (config (self st))) (access_kwargs (config (self st)))
                     (remote_file_path (self st)) (as_posix f)) ;;
          do z <- ask_host (is_zipfile (as_posix f));
          when z
            (set_is_compressed ;;
             when (uncompress (config (self st))) (process_zip (as_posix f))) ;;
          do t <- on_host (fun h => (h, is_tarfile (as_posix f) h));
          when t
            (set_is_compressed ;;
             when (uncompress (config (self st))) (process_tar (as_posix f)))).
  split; [auto 12 with quiet |].
  unfold get_file_body, _create_full_tmp_dir_path.
  unfold bind at 1 2 3. unfold get_self at 1, lift at 1. rewrite Hf.
  rewrite (on_host_run _ _ _ _ Hmk).
  unfold bind at 1 2 3 4 5 6. unfold get_self at 1, on_host at 1, ask_host at 1, emit at 1 2,
    lift at 1.
  cbn [host self trace]. rewrite Hfs, Hf. reflexivity.
Qed.

(** C4.  With the decorator as the spec describes it: a document whose
    cache path exists is left alone by [get_file]; a document whose cache
    path does not exist yet is fetched by one call to the remote
    filesystem, and once the cache path exists a second [get_file] changes
    nothing, so that both runs together have made exactly that one call. *)
Theorem get_file_fetches_once (st : State) (f : Path) :
  filename (self st) = Ok f ->
  (path_is_file (as_posix f) (host st) = true -> get_file st = (st, Ok tt)) /\
  (forall h1,
     path_is_file (as_posix f) (host st) = false ->
     mkdir_parents (as_posix (parent f)) (host st) = (h1, Ok tt) ->
     get_filesystem_class (protocol (config (self st)))
       (access_kwargs (config (self st))) h1 = Ok tt ->
     path_is_file (as_posix f) (host (fst (get_file st))) = true ->
     get_file (fst (get_file st)) = (fst (get_file st), Ok tt) /\
     fetch_calls (trace (fst (get_file (fst (get_file st)))))
     = fetch_calls (trace st) ++ [(remote_file_path (self st), as_posix f)]).
Proof.
  intros Hf.
  assert (Hskip : forall s : State,
             filename (self s) = Ok f -> path_is_file (as_posix f) (host s) = true ->
             get_file s = (s, Ok tt)).
  { intros s Hs Hp.
    unfold get_file, skip_if_file_exists, bind, get_self, lift, ask_host, ret.
    now rewrite Hs, Hp. }
  split; [now apply Hskip |].
  intros h1 Hnew Hmk Hfs Hthere.
  assert (Hrun : get_file st = get_file_body st).
  { unfold get_file, skip_if_file_exists, bind, get_self, lift, ask_host.
    now rewrite Hf, Hnew. }
  destruct (get_file_body_fetch st f h1 Hf Hmk Hfs) as (after & Hq & Hbody).
  remember {| host := h1; self := self st;
              trace := (trace st ++ [Log DEBUG (fetching_msg (self st) h1)]) ++
                         [FsGet (remote_file_path (self st)) (as_posix f)] |}
    as st2 eqn:Est2.
  rewrite Hrun, Hbody in *.
  destruct (Hq st2) as (Hcalls & Hsc & Hcfg & Hkey).
  assert (Hsame : get_file (fst (after st2)) = (fst (after st2), Ok tt)).
  { apply Hskip; [| exact Hthere].
    rewrite <- Hf. apply filename_identity.
    - now rewrite Hsc, Est2.
    - now rewrite Hcfg, Est2.
    - now rewrite Hkey, Est2. }
  split; [exact Hsame |].
  rewrite Hsame. cbn [fst]. rewrite Hcalls, Est2. cbn [trace].
  rewrite !fetch_calls_app. cbn.
  now rewrite app_nil_r.
Qed.

End IngestDocFacts.

(** * The claims on sample data *)

Lemma list_files_keeps_positive_sizes_witness :
  Forall int_size [entry_dir; entry_file] /\
  _list_files (sample_connector false [entry_dir; entry_file])
  = Ok (map (fun x => dict_get x "name")
          (List.filter size_positive [entry_dir; entry_file])) /\
  _list_files (sample_connector true [entry_dir; entry_file])
  = Ok (map (fun kv => PyStr (fst kv))
          (List.filter (fun kv => size_positive (snd kv))
             [("bucket/reports", entry_dir); ("bucket/a.txt", entry_file)])).
Proof.
  assert (Hall : Forall int_size [entry_dir; entry_file]).
  { repeat constructor; [exists 0%Z | exists 12%Z]; reflexivity. }
  split; [exact Hall |]. split.
  - exact (proj1 (list_files_keeps_positive_sizes
                    (sample_connector false [entry_dir; entry_file]))
             [entry_dir; entry_file] eq_refl eq_refl Hall).
  - refine (proj2 (list_files_keeps_positive_sizes
                     (sample_connector true [entry_dir; entry_file]))
              [("bucket/reports", entry_dir); ("bucket/a.txt", entry_file)] _ _ _);
      [reflexivity | reflexivity |].
    repeat constructor; [exists 0%Z | exists 12%Z]; reflexivity.
Defined.

Lemma list_files_needs_sizes_witness :
  entry_no_size !! "size" = None /\
  (exists msg,
     _list_files (sample_connector false [entry_file; entry_no_size])
     = Raise (TypeError msg)) /\
  (exists msg,
     _list_files (sample_connector true [entry_no_size; entry_file])
     = Raise (TypeError msg)) /\
  (forall r, _list_files (sample_connector false [entry_dir; entry_file]) = Ok r ->
             Forall int_size [entry_dir; entry_file]).
Proof.
  split; [reflexivity |]. split; [| split].
  - refine (proj1 (proj1 (list_files_needs_sizes
                            (sample_connector false [entry_file; entry_no_size]))
                     [entry_file; entry_no_size] _ _) _); [reflexivity | reflexivity |].
    exists entry_no_size. split; [right; left; reflexivity | reflexivity].
  - refine (proj1 (proj2 (list_files_needs_sizes
                            (sample_connector true [entry_no_size; entry_file]))
                     [("bucket/b.txt", entry_no_size); ("bucket/a.txt", entry_file)] _ _) _);
      [reflexivity | reflexivity |].
    exists ("bucket/b.txt", entry_no_size). split; [left; reflexivity | reflexivity].
  - refine (proj2 (proj1 (list_files_needs_sizes
                            (sample_connector false [entry_dir; entry_file]))
                     [entry_dir; entry_file] _ _)); reflexivity.
Defined.

Lemma initialize_checks_unfiltered_listing_witness :
  initialize (sample_connector false [entry_dir]) = Ok tt /\
  get_ingest_docs (Child := LocalDoc) (sample_connector false [entry_dir]) = Ok [] /\
  get_ingest_docs (Child := LocalDoc) (sample_connector true [entry_dir]) = Ok [] /\
  initialize (sample_connector false [])
  = Raise (ValueError (no_objects_msg "s3://bucket")).
Proof.
  pose proof (initialize_checks_unfiltered_listing LocalDoc
                (sample_connector false [entry_dir]) [entry_dir] eq_refl)
    as (_ & Hinit & Hdocs & _).
  pose proof (initialize_checks_unfiltered_listing LocalDoc
                (sample_connector true [entry_dir]) [entry_dir] eq_refl)
    as (_ & _ & _ & Hrec).
  pose proof (initialize_checks_unfiltered_listing LocalDoc
                (sample_connector false []) [] eq_refl)
    as (Hempty & _).
  split; [| split; [| split]].
  - apply Hinit. discriminate.
  - apply Hdocs; [reflexivity |]. repeat constructor.
  - apply (Hrec [("bucket/reports", entry_dir)]); [reflexivity | reflexivity |].
    repeat constructor.
  - now apply Hempty.
Defined.

(** C1 as stated fails: a listing that holds a directory marker only
    passes initialization, and the run goes on with no document. *)
Lemma empty_corpus_counterexample :
  List.filter size_positive [entry_dir] = [] /\
  _list_files (sample_connector false [entry_dir]) = Ok [] /\
  initialize (sample_connector false [entry_dir]) = Ok tt /\
  get_ingest_docs (Child := LocalDoc) (sample_connector false [entry_dir]) = Ok [].
Proof. repeat split. Qed.

Lemma archives_skip_processing_witness :
  let st := fetched_state "bucket/a.zip" "/tmp/dl/a.zip" (ZipFile true) false true in
  let st' := fetched_state "bucket/a.txt" "/tmp/dl/a.txt" PlainFile false false in
  (process_file (Elements := list string) st
   = ({| host := host st; self := self st;
         trace := [Log WARNING "file detected as zip, skipping process file: /tmp/dl/a.zip"] |},
      Ok None) /\
   write_result (Elements := list string) st
   = ({| host := host st; self := self st;
         trace := [Log WARNING "file detected as zip, skipping write results: /tmp/dl/a.zip"] |},
      Ok tt)) /\
  (process_file (Elements := list string) st'
   = on_host (super_process_file (self st')) st' /\
   write_result (Elements := list string) st'
   = on_host (super_write_result (Elements := list string) (self st')) st').
Proof.
  intros st st'. split.
  - exact (proj1 (archives_skip_processing (Elements := list string) st
                    {| root := "/"; parts := ["tmp"; "dl"; "a.zip"] |} eq_refl) eq_refl).
  - exact (proj2 (archives_skip_processing (Elements := list string) st'
                    {| root := "/"; parts := ["tmp"; "dl"; "a.txt"] |} eq_refl) eq_refl).
Defined.

Lemma archive_errors_asymmetric_witness :
  let tar := fetched_state "bucket/a.tar" "/tmp/dl/a.tar" (TarFile false) true true in
  let zip := fetched_state "bucket/a.zip" "/tmp/dl/a.zip" (ZipFile false) true true in
  let new := sample_state "bucket/a.zip" (ZipFile false) true false in
  (snd (process_tar (Elements := list string) "/tmp/dl/a.tar" tar) = Ok tt /\
   self (fst (process_tar (Elements := list string) "/tmp/dl/a.tar" tar)) = self tar) /\
  snd (process_zip (Elements := list string) "/tmp/dl/a.zip" zip)
  = Raise (OtherError "BadZipFile" "File is not a zip file") /\
  snd (get_file (Elements := list string) new)
  = Raise (OtherError "BadZipFile" "File is not a zip file").
Proof.
  intros tar zip new. split; [| split].
  - pose proof (proj1 (archive_errors_asymmetric (Elements := list string) tar)
                  "/tmp/dl/a.tar" (host tar) "truncated header" eq_refl) as Htar.
    rewrite Htar. split; reflexivity.
  - pose proof (proj1 (proj2 (archive_errors_asymmetric (Elements := list string) zip))
                  "/tmp/dl/a.zip" (host zip)
                  (OtherError "BadZipFile" "File is not a zip file") eq_refl) as Hzip.
    rewrite Hzip. reflexivity.
  - refine (proj1 (proj2 (proj2 (archive_errors_asymmetric (Elements := list string) new))
              {| root := "/"; parts := ["tmp"; "dl"; "a.zip"] |}
              (host new)
              {| disk := {[ "/tmp/dl/a.zip" := ZipFile false ]}; bucket := bucket (host new) |}
              {| disk := {[ "/tmp/dl/a.zip" := ZipFile false ]}; bucket := bucket (host new) |}
              (OtherError "BadZipFile" "File is not a zip file")
              _ _ _ _ _ _ _ _)); reflexivity.
Defined.

Lemma get_file_fetches_once_witness :
  let st := sample_state "bucket/a.txt" PlainFile false false in
  let cached := fetched_state "bucket/a.txt" "/tmp/dl/a.txt" PlainFile false false in
  get_file (Elements := list string) cached = (cached, Ok tt) /\
  get_file (Elements := list string) (fst (get_file (Elements := list string) st))
  = (fst (get_file (Elements := list string) st), Ok tt) /\
  fetch_calls (trace (fst (get_file (Elements := list string)
                             (fst (get_file (Elements := list string) st)))))
  = fetch_calls (trace st) ++ [(PyStr "bucket/a.txt", "/tmp/dl/a.txt")].
Proof.
  intros st cached. split.
  - exact (proj1 (get_file_fetches_once (Elements := list string) cached
                    {| root := "/"; parts := ["tmp"; "dl"; "a.txt"] |} eq_refl) eq_refl).
  - refine (proj2 (get_file_fetches_once (Elements := list string) st
                     {| root := "/"; parts := ["tmp"; "dl"; "a.txt"] |} eq_refl)
              (host st) _ _ _ _); reflexivity.
Defined.

(** C9 on a key that names the root directory a second time: the inner
    occurrence is removed with the leading one, and two remote keys share
    one cache path and one output path. *)
Lemma tmp_download_file_inner_occurrence :
  let d := sample_doc "bucket/2023/bucket/report.txt" false false in
  let d' := sample_doc "bucket/2023/report.txt" false false in
  _tmp_download_file d = Ok (of_string "/tmp/dl/2023/report.txt") /\
  _tmp_download_file d <> Ok (of_string "/tmp/dl/2023/bucket/report.txt") /\
  _output_filename d = Ok (of_string "/out/2023/report.txt.json") /\
  _tmp_download_file d = _tmp_download_file d' /\
  _output_filename d = _output_filename d'.
Proof.
  intros d d'. split; [reflexivity |]. split; [discriminate |].
  repeat split.
Qed.

(** * Further properties of the address parser *)

Module ParserMore.
Import PyStr PyStrFacts Re ReFacts ParserFacts.

Lemma append_inv_head (a b c : string) : a +:+ b = a +:+ c -> b = c.
Proof.
  induction a as [|x a IH]; cbn [String.append]; [trivial |].
  intros [= Heq]. now apply IH.
Qed.

Lemma forallb_app (p : ascii -> bool) (a b : string) :
  forallb p (a +:+ b) = forallb p a && forallb p b.
Proof.
  induction a as [|c a IH]; cbn [String.append forallb]; [reflexivity |].
  now rewrite IH, andb_assoc.
Qed.

(** A string that is not made of the class alone has a first character
    outside it. *)
Lemma forallb_false_split (p : ascii -> bool) (s : string) :
  forallb p s = false ->
  exists a c b, s = a +:+ String c b /\ forallb p a = true /\ p c = false.
Proof.
  induction s as [|x s IH]; cbn [forallb]; [discriminate |].
  destruct (p x) eqn:Hx; cbn [andb].
  - intros (a & c & b & -> & Ha & Hc)%IH.
    exists (String x a), c, b. cbn [forallb]. now rewrite Hx, Ha.
  - intros _. now exists "", x, s.
Qed.

(** What the continuations of the first group reject: a stop before a
    character that is neither a slash nor whitespace. *)
Lemma dir_only_rejects (c : ascii) (s : string) (caps : captures) (k : cont) :
  not_slash_or_space c = true ->
  greedy_star is_slash (String c s) caps
    (fun s' caps' => if at_end s' then k s' caps' else None) = None.
Proof.
  intros [Hc1 Hc2]%andb_true_iff.
  rewrite greedy_star_stop by (cbn; now rewrite (proj1 (negb_true_iff _) Hc1)).
  destruct s as [|x s]; cbn [at_end]; [| reflexivity].
  destruct (Ascii.eqb c "010") eqn:E; [| reflexivity].
  apply newline_is_space in E. now rewrite E in Hc2.
Qed.

Lemma dir_and_file_rejects (c : ascii) (s : string) :
  not_slash_or_space c = true -> strip_prefix "/" (String c s) = None.
Proof.
  intros [Hc _]%andb_true_iff. cbn [strip_prefix].
  unfold is_slash in Hc. rewrite Ascii.eqb_sym.
  now rewrite (proj1 (negb_true_iff _) Hc).
Qed.

(** The slashes of the second pattern never reach the end of the string
    when a character that is neither a slash nor whitespace follows. *)
Lemma slashes_then_solid (sl y : string) (c : ascii) (caps : captures) (k : cont) :
  forallb is_slash sl = true -> is_slash c = false -> isspace c = false ->
  greedy_star is_slash (sl +:+ String c y) caps
    (fun s' caps' => if at_end s' then k s' caps' else None) = None.
Proof.
  intros Hsl Hc Hs. induction sl as [|x sl IH].
  - cbn [String.append]. apply dir_only_rejects.
    unfold not_slash_or_space. now rewrite Hc, Hs.
  - cbn [forallb] in Hsl. apply andb_true_iff in Hsl as [Hx Hsl].
    cbn [String.append greedy_star]. rewrite Hx, (IH Hsl).
    cbn [at_end]. now destruct sl.
Qed.

Lemma re_dir_only_none (proto d f rest : string) :
  d <> "" -> forallb not_slash_or_space d = true ->
  forallb not_space f = true -> forallb is_slash f = false ->
  re_match (re_dir_only proto) (proto +:+ "://" +:+ d +:+ "/" +:+ f +:+ rest) = None.
Proof.
  intros Hd Hall Hf Hsolid.
  apply forallb_false_split in Hsolid as (sl & c & g & -> & Hsl & Hc).
  assert (Hs : isspace c = false).
  { rewrite forallb_app in Hf. apply andb_true_iff in Hf as [_ Hf].
    cbn [forallb] in Hf. apply andb_true_iff in Hf as [Hf _].
    now apply negb_true_iff in Hf. }
  unfold re_match, re_dir_only. cbn [exec]. rewrite !strip_prefix_app.
  rewrite lazy_plus_run; [| | assumption | assumption | reflexivity].
  - rewrite append_assoc.
    change ("/" +:+ sl +:+ String c g +:+ rest)
      with (String "/" sl +:+ String c (g +:+ rest)).
    apply slashes_then_solid; [| assumption | assumption].
    cbn [forallb]. now rewrite Hsl.
  - intros x s Hx. now apply dir_only_rejects.
Qed.

(** The third pattern on a directory name, a slash and a file path; the
    file path ends where whitespace begins. *)
Lemma re_dir_and_file_match (proto d f rest : string) :
  d <> "" -> forallb not_slash_or_space d = true ->
  forallb not_space f = true -> stops not_space rest = true ->
  re_match (re_dir_and_file proto) (proto +:+ "://" +:+ d +:+ "/" +:+ f +:+ rest)
  = Some [(2, f); (1, d)].
Proof.
  intros Hd Hall Hf Hrest. unfold re_match, re_dir_and_file. cbn [exec].
  rewrite !strip_prefix_app.
  rewrite lazy_plus_run; [| | assumption | assumption | reflexivity].
  - rewrite take_consumed, strip_prefix_app.
    erewrite greedy_star_run; [reflexivity | assumption | assumption |].
    now rewrite take_consumed.
  - intros c s Hc. now rewrite (dir_and_file_rejects c s Hc).
Qed.

(** The strings the second and the third pattern accept. *)
Lemma re_dir_only_shape (proto s : string) (m : captures) :
  re_match (re_dir_only proto) s = Some m ->
  exists rest,
    s = proto +:+ "://" +:+ group 1 m +:+ rest /\
    group 1 m <> "" /\ forallb not_slash_or_space (group 1 m) = true.
Proof.
  unfold re_match, re_dir_only. cbn [exec].
  destruct (strip_prefix proto s) as [s1|] eqn:E1; [| discriminate].
  apply strip_prefix_inv in E1 as ->.
  destruct (strip_prefix "://" s1) as [s2|] eqn:E2; [| discriminate].
  apply strip_prefix_inv in E2 as ->.
  intros (d & s3 & -> & Hd & Hall & Hk)%lazy_plus_inv.
  rewrite take_consumed in Hk.
  apply greedy_star_inv in Hk as (sl & s4 & -> & Hsl & Hk).
  destruct (at_end s4); [| discriminate].
  injection Hk as <-. cbn [group Nat.eqb]. now exists (sl +:+ s4).
Qed.

(** A greedy run before a continuation that accepts everywhere takes
    the whole run of the class. *)
Lemma greedy_star_total (p : ascii -> bool) (s : string) (caps : captures) (k : cont) :
  (forall s', exists r, k s' caps = Some r) ->
  exists r, greedy_star p s caps k = Some r.
Proof.
  intros Hk. induction s as [|c s [r IH]]; cbn [greedy_star]; [apply Hk |].
  destruct (p c); [| apply Hk]. rewrite IH. now exists r.
Qed.

Lemma greedy_star_inv_max (p : ascii -> bool) (s : string) (caps m : captures) (k : cont) :
  (forall s', exists r, k s' caps = Some r) ->
  greedy_star p s caps k = Some m ->
  exists d s', s = d +:+ s' /\ forallb p d = true /\ stops p s' = true /\
               k s' caps = Some m.
Proof.
  intros Hk. induction s as [|c s IH]; cbn [greedy_star].
  - intros Hm. now exists "", "".
  - destruct (p c) eqn:Hc.
    + destruct (greedy_star_total p s caps k Hk) as [r Hr]. rewrite Hr in *.
      intros [= ->]. destruct (IH eq_refl) as (d & s' & -> & Hd & Hs & Hm).
      exists (String c d), s'. cbn [forallb]. now rewrite Hc, Hd.
    + intros Hm. exists "", (String c s). cbn. now rewrite Hc.
Qed.

Lemma re_dir_and_file_shape (proto s : string) (m : captures) :
  re_match (re_dir_and_file proto) s = Some m ->
  exists rest,
    s = proto +:+ "://" +:+ group 1 m +:+ "/" +:+ group 2 m +:+ rest /\
    group 1 m <> "" /\ forallb not_slash_or_space (group 1 m) = true /\
    forallb not_space (group 2 m) = true /\ stops not_space rest = true.
Proof.
  unfold re_match, re_dir_and_file. cbn [exec].
  destruct (strip_prefix proto s) as [s1|] eqn:E1; [| discriminate].
  apply strip_prefix_inv in E1 as ->.
  destruct (strip_prefix "://" s1) as [s2|] eqn:E2; [| discriminate].
  apply strip_prefix_inv in E2 as ->.
  intros (d & s3 & -> & Hd & Hall & Hk)%lazy_plus_inv.
  rewrite take_consumed in Hk.
  destruct (strip_prefix "/" s3) as [s4|] eqn:E3; [| discriminate].
  apply strip_prefix_inv in E3 as ->.
  apply greedy_star_inv_max in Hk as (f & s5 & -> & Hf & Hs & Hk);
    [| intros s'; eauto].
  rewrite take_consumed in Hk.
  injection Hk as <-. cbn [group Nat.eqb]. now exists s5.
Qed.

End ParserMore.

Section ParserMoreClaims.
Import PyStr PyStrFacts Re ReFacts ParserFacts ParserMore.

Variables (recur : bool) (kw : list (string * string)) (unc : bool).

(** X1.  The third shape: after a supported protocol, a directory name
    free of slashes and whitespace, a slash and a file path that is not
    made of slashes alone, the parser yields both parts; the file path
    stops where whitespace begins, and what follows is dropped. *)
Theorem root_plus_object_shape (proto d f rest : string) :
  str_in proto SUPPORTED_REMOTE_FSSPEC_PROTOCOLS = true ->
  d <> "" -> forallb not_slash_or_space d = true ->
  forallb not_space f = true -> forallb is_slash f = false ->
  stops not_space rest = true ->
  contains "://" (d +:+ "/" +:+ f +:+ rest) = false ->
  __post_init__ (proto +:+ "://" +:+ d +:+ "/" +:+ f +:+ rest) recur kw unc
  = Ok {| path := proto +:+ "://" +:+ d +:+ "/" +:+ f +:+ rest;
          recursive := recur; access_kwargs := kw; protocol := proto;
          path_without_protocol := d +:+ "/" +:+ f +:+ rest;
          dir_path := d; file_path := f; uncompress := unc |}.
Proof.
  intros Hsup Hd Hall Hf Hsolid Hrest Hsep.
  unfold __post_init__.
  rewrite (unpack2_split_one proto _ (supported_no_sep proto Hsup) Hsep).
  rewrite Hsup. cbn [negb].
  assert (E1 : re_match (re_dropbox_root proto)
                 (proto +:+ "://" +:+ d +:+ "/" +:+ f +:+ rest) = None).
  { destruct d as [|c d]; [congruence |].
    apply (re_dropbox_root_none proto _ c).
    exact (not_slash_or_space_head c d Hall). }
  rewrite E1, (re_dir_only_none proto d f rest Hd Hall Hf Hsolid).
  now rewrite (re_dir_and_file_match proto d f rest Hd Hall Hf Hrest).
Qed.

(** X2.  In the root-only shape the dollar of the pattern also accepts
    one newline at the very end: the directory path is returned without
    it, while the path without protocol keeps it. *)
Theorem root_only_trailing_newline (proto d sl : string) :
  str_in proto SUPPORTED_REMOTE_FSSPEC_PROTOCOLS = true ->
  d <> "" -> forallb not_slash_or_space d = true ->
  forallb is_slash sl = true ->
  contains "://" (d +:+ sl +:+ String "010" "") = false ->
  __post_init__ (proto +:+ "://" +:+ d +:+ sl +:+ String "010" "") recur kw unc
  = Ok {| path := proto +:+ "://" +:+ d +:+ sl +:+ String "010" "";
          recursive := recur; access_kwargs := kw; protocol := proto;
          path_without_protocol := d +:+ sl +:+ String "010" "";
          dir_path := d; file_path := ""; uncompress := unc |}.
Proof.
  intros Hsup Hd Hall Hsl Hsep.
  unfold __post_init__.
  rewrite (unpack2_split_one proto _ (supported_no_sep proto Hsup) Hsep).
  rewrite Hsup. cbn [negb].
  assert (E1 : re_match (re_dropbox_root proto)
                 (proto +:+ "://" +:+ d +:+ sl +:+ String "010" "") = None).
  { destruct d as [|c d]; [congruence |].
    apply (re_dropbox_root_none proto _ c).
    exact (not_slash_or_space_head c d Hall). }
  assert (E2 : re_match (re_dir_only proto)
                 (proto +:+ "://" +:+ d +:+ sl +:+ String "010" "")
               = Some [(2, sl); (1, d)]).
  { unfold re_match, re_dir_only. cbn [exec]. rewrite !strip_prefix_app.
    rewrite lazy_plus_run; [| | assumption | assumption |].
    - rewrite take_consumed.
      erewrite greedy_star_run; [reflexivity | assumption | reflexivity |].
      cbn [at_end Ascii.eqb Bool.eqb]. now rewrite take_consumed.
    - intros c s Hc. now apply dir_only_rejects.
    - destruct sl as [|x sl]; [reflexivity |].
      cbn [forallb] in Hsl. apply andb_true_iff in Hsl as [Hx _].
      cbn. unfold not_slash_or_space. now rewrite Hx. }
  now rewrite E1, E2.
Qed.

(** X3.  The root may not be empty: a remainder that is empty or begins
    with a slash is rejected as an invalid path for every supported
    protocol, and so is one that begins with whitespace for every
    supported protocol other than dropbox. *)
Theorem empty_root_rejected (proto r : string) :
  str_in proto SUPPORTED_REMOTE_FSSPEC_PROTOCOLS = true ->
  contains "://" r = false ->
  r = "" \/ startswith r "/" = true \/
  (String.eqb proto "dropbox" = false /\
   exists w r', r = String w r' /\ isspace w = true) ->
  __post_init__ (proto +:+ "://" +:+ r) recur kw unc
  = Raise (ValueError (invalid_path_msg (proto +:+ "://" +:+ r))).
Proof.
  intros Hsup Hsep Hshape.
  assert (Hstop : stops not_slash_or_space r = true).
  { destruct Hshape as [-> | [Hs | (_ & w & r' & -> & Hw)]]; [reflexivity | |].
    - apply startswith_inv in Hs as [r' ->]. reflexivity.
    - cbn. unfold not_slash_or_space. now rewrite Hw, andb_false_r. }
  assert (Hroot : String.eqb proto "dropbox" = true ->
                  stops isspace r = true).
  { intros Hp. destruct Hshape as [-> | [Hs | (Hp' & _)]]; [reflexivity | | congruence].
    apply startswith_inv in Hs as [r' ->]. reflexivity. }
  unfold __post_init__.
  rewrite (unpack2_split_one proto _ (supported_no_sep proto Hsup) Hsep).
  rewrite Hsup. cbn [negb].
  assert (E1 : matched (re_match (re_dropbox_root proto) (proto +:+ "://" +:+ r))
               && String.eqb proto "dropbox" = false).
  { destruct (String.eqb proto "dropbox") eqn:Hp; [| apply andb_false_r].
    specialize (Hroot eq_refl). rewrite andb_true_r.
    unfold re_match, re_dropbox_root. cbn [exec]. rewrite !strip_prefix_app.
    destruct r as [|c r]; [reflexivity |]. cbn in Hroot.
    apply negb_true_iff in Hroot. now rewrite Hroot. }
  assert (Hlazy : forall k, lazy_plus not_slash_or_space r [] k = None).
  { intros k. destruct r as [|c r]; [reflexivity |]. cbn in Hstop |- *.
    apply negb_true_iff in Hstop. now rewrite Hstop. }
  assert (E2 : re_match (re_dir_only proto) (proto +:+ "://" +:+ r) = None).
  { unfold re_match, re_dir_only. cbn [exec]. rewrite !strip_prefix_app. apply Hlazy. }
  assert (E3 : re_match (re_dir_and_file proto) (proto +:+ "://" +:+ r) = None).
  { unfold re_match, re_dir_and_file. cbn [exec]. rewrite !strip_prefix_app. apply Hlazy. }
  now rewrite E1, E2, E3.
Qed.

(** X4.  What every completed object satisfies: the constructor's fields
    are kept, the protocol is a supported one, the path is the protocol,
    the separator and the path without protocol; and either the object is
    the dropbox root, or the directory path is a non-empty run without
    slash and whitespace that begins the path without protocol.  A file
    path that is not empty follows the directory path and a slash there
    and runs up to the first whitespace or the end, so that a path
    without whitespace is the directory path, a slash and the file path. *)
Theorem post_init_invariants (url : string) (cfg : SimpleFsspecConfig) :
  __post_init__ url recur kw unc = Ok cfg ->
  (path cfg = url /\ recursive cfg = recur /\
   access_kwargs cfg = kw /\ uncompress cfg = unc) /\
  str_in (protocol cfg) SUPPORTED_REMOTE_FSSPEC_PROTOCOLS = true /\
  url = protocol cfg +:+ "://" +:+ path_without_protocol cfg /\
  forallb not_space (file_path cfg) = true /\
  ((protocol cfg = "dropbox" /\ dir_path cfg = " " /\ file_path cfg = "") \/
   (dir_path cfg <> "" /\ forallb not_slash_or_space (dir_path cfg) = true /\
    startswith (path_without_protocol cfg) (dir_path cfg) = true /\
    (file_path cfg <> "" ->
     (exists rest,
        path_without_protocol cfg
        = dir_path cfg +:+ "/" +:+ file_path cfg +:+ rest /\
        stops not_space rest = true) /\
     (forallb not_space (path_without_protocol cfg) = true ->
      path_without_protocol cfg = dir_path cfg +:+ "/" +:+ file_path cfg)))).
Proof.
  intros Hok.
  destruct (post_init_ok_split _ _ _ _ _ Hok) as [Hpath Hsplit].
  destruct (post_init_fields _ _ _ _ _ _ _ Hsplit Hok) as (_ & _ & Hsup).
  remember (protocol cfg) as p eqn:Ep.
  remember (path_without_protocol cfg) as r eqn:Er.
  revert Hok. unfold __post_init__. rewrite Hsplit, Hsup. cbn [negb].
  destruct (matched _ && _) eqn:E1.
  - apply andb_true_iff in E1 as [_ Hp]. apply String.eqb_eq in Hp.
    intros [= <-]. cbn. repeat split; try assumption. now left.
  - destruct (re_match (re_dir_only p) url) as [m|] eqn:E2.
    + intros [= <-]. cbn.
      apply re_dir_only_shape in E2 as (rest & Hs & Hd & Hall).
      repeat split; try assumption. right.
      rewrite Hpath in Hs at 1. do 2 apply append_inv_head in Hs.
      split; [assumption |]. split; [assumption |]. split.
      * rewrite Hs. apply startswith_app.
      * congruence.
    + destruct (re_match (re_dir_and_file p) url) as [m|] eqn:E3; [| discriminate].
      intros [= <-]. cbn.
      apply re_dir_and_file_shape in E3 as (rest & Hs & Hd & Hall & Hf & Hrest).
      repeat split; try assumption. right.
      rewrite Hpath in Hs at 1. do 2 apply append_inv_head in Hs.
      split; [assumption |]. split; [assumption |]. split.
      * rewrite Hs. apply startswith_app.
      * intros _. split; [now exists rest |].
        rewrite Hs. rewrite !forallb_app. intros Hall'.
        repeat (apply andb_true_iff in Hall' as [? Hall']).
        destruct rest as [|c rest]; [now rewrite append_nil_r |].
        cbn in Hrest, Hall'. apply andb_true_iff in Hall' as [Hc _].
        now rewrite Hc in Hrest.
Qed.

End ParserMoreClaims.

(** * Cache paths and extraction directories *)

Module PathFacts.
Import PyStr PyStrFacts.

Lemma replace_from_skip (old new a r : string) :
  replace_from old new (a +:+ r) (String.length a) = replace_from old new r 0.
Proof. induction a as [|c a IH]; cbn; [reflexivity | exact IH]. Qed.

(** An occurrence at the start is replaced, the scan goes on after it. *)
Lemma replace_prefix (old new r : string) :
  old <> "" -> replace (old +:+ r) old new = new +:+ replace r old new.
Proof.
  intros Hold. unfold replace. destruct old as [|c old]; [congruence |].
  change (String c old +:+ r) with (String c (old +:+ r)).
  cbn [replace_from].
  change (String c (old +:+ r)) with (String c old +:+ r).
  rewrite startswith_app.
  replace (String.length (String c old) - 1) with (String.length old)
    by (cbn [String.length]; lia).
  now rewrite replace_from_skip.
Qed.

(** Without an occurrence nothing changes. *)
Lemma replace_none (old new s : string) :
  contains old s = false -> replace s old new = s.
Proof.
  unfold replace. induction s as [|c s IH]; cbn [contains replace_from]; [reflexivity |].
  intros [-> Hs]%orb_false_iff. now rewrite (IH Hs).
Qed.

Lemma startswith_contains (sub s : string) :
  startswith s sub = true -> contains sub s = true.
Proof. destruct s; cbn [contains]; [trivial |]. now intros ->. Qed.

Lemma cut_last_slash_spec (p : string) :
  p = fst (cut_last_slash p) +:+ snd (cut_last_slash p) /\
  contains "/" (snd (cut_last_slash p)) = false /\
  (fst (cut_last_slash p) = "" \/ exists x, fst (cut_last_slash p) = x +:+ "/").
Proof.
  induction p as [|c p (Hp & Ht & Hh)]; [now repeat split; left |].
  cbn [cut_last_slash]. destruct (cut_last_slash p) as [h t]. cbn [fst snd] in *.
  destruct h as [|a h]; cbn [nonempty].
  - destruct (is_slash c) eqn:Hc; cbn [fst snd].
    + unfold is_slash in Hc. apply Ascii.eqb_eq in Hc as ->.
      cbn in Hp. subst p. repeat split; [assumption |]. right. now exists "".
    + cbn in Hp. subst p. repeat split; [| now left].
      cbn [contains]. rewrite Ht, orb_false_r.
      rewrite startswith_cons. unfold is_slash in Hc.
      now rewrite Ascii.eqb_sym, Hc.
  - cbn [fst snd]. repeat split; [now rewrite Hp at 1 | assumption |].
    right. destruct Hh as [Hh | [x Hx]]; [discriminate |].
    exists (String c x). now rewrite Hx.
Qed.

Lemma rstrip_slash_snoc (x : string) : rstrip_slash (x +:+ "/") = rstrip_slash x.
Proof.
  induction x as [|c x IH]; [reflexivity |].
  cbn [String.append rstrip_slash]. now rewrite IH.
Qed.

Lemma rstrip_slash_id (x : string) :
  endswith_slash x = false -> rstrip_slash x = x.
Proof.
  induction x as [|c x IH]; [reflexivity |].
  cbn [endswith_slash rstrip_slash]. destruct x as [|d x].
  - intros ->. reflexivity.
  - intros Hx. now rewrite (IH Hx).
Qed.

Lemma endswith_slash_inv (x : string) :
  endswith_slash x = true -> exists y, x = y +:+ "/".
Proof.
  induction x as [|c x IH]; [discriminate |].
  cbn [endswith_slash]. destruct x as [|d x].
  - unfold is_slash. intros ->%Ascii.eqb_eq. now exists "".
  - intros [y Hy]%IH. exists (String c y). now rewrite Hy.
Qed.

Lemma not_all_slashes (x : string) :
  x <> "" -> endswith_slash x = false -> forallb is_slash x = false.
Proof.
  induction x as [|c x IH]; [congruence |]. intros _.
  cbn [endswith_slash forallb]. destruct x as [|d x].
  - now intros ->.
  - intros Hx. rewrite IH; [apply andb_false_r | discriminate | exact Hx].
Qed.

Lemma forallb_snoc_slash (x : string) :
  forallb is_slash (x +:+ "/") = forallb is_slash x.
Proof.
  induction x as [|c x IH]; [reflexivity |].
  cbn [String.append forallb]. now rewrite IH.
Qed.

Lemma nonempty_snoc (x y : string) : y <> "" -> nonempty (x +:+ y) = true.
Proof. destruct x, y; cbn; congruence. Qed.

(** A component without slash, followed by a suffix that does not begin
    with one, does not begin with a slash. *)
Lemma component_not_absolute (t suffix : string) :
  contains "/" t = false -> startswith suffix "/" = false ->
  startswith (t +:+ suffix) "/" = false.
Proof.
  intros Ht Hs. destruct t as [|c t]; [exact Hs |].
  apply contains_head_false in Ht. cbn [String.append].
  rewrite startswith_cons in *. now destruct (Ascii.eqb "/" c).
Qed.

End PathFacts.

Section PathClaims.
Import PyStr PyStrFacts PathFacts.
Context {Child : Type}.

(** X5.  The extraction directory is the archive path with the suffix
    appended, for every archive path without a doubled slash and every
    suffix that does not begin with a slash. *)
Theorem uncompressed_dir_appends (p suffix : string) :
  contains "//" p = false -> startswith suffix "/" = false ->
  uncompressed_dir p suffix = p +:+ suffix.
Proof.
  intros Hp Hs. unfold uncompressed_dir, os_path_split.
  destruct (cut_last_slash_spec p) as (Hcut & Ht & Hh).
  destruct (cut_last_slash p) as [h t]. cbn [fst snd] in *.
  pose proof (component_not_absolute t suffix Ht Hs) as Hb.
  destruct Hh as [-> | [x ->]].
  - cbn [nonempty andb]. unfold os_path_join. rewrite Hb. cbn.
    now rewrite Hcut.
  - destruct x as [|c x].
    + cbn. unfold os_path_join. rewrite Hb. cbn. now rewrite Hcut.
    + assert (Hx : endswith_slash (String c x) = false).
      { destruct (endswith_slash (String c x)) eqn:E; [| reflexivity].
        apply endswith_slash_inv in E as [y Hy]. rewrite Hy in Hcut.
        rewrite Hcut in Hp. rewrite !append_assoc in Hp.
        rewrite (contains_app_r "//" y) in Hp; [discriminate |].
        apply startswith_contains.
        change ("/" +:+ "/" +:+ t) with ("//" +:+ t). apply startswith_app. }
      assert (Hne : String c x <> "") by discriminate.
      rewrite nonempty_snoc by discriminate.
      rewrite forallb_snoc_slash, (not_all_slashes _ Hne Hx).
      cbn [negb andb]. rewrite rstrip_slash_snoc, (rstrip_slash_id _ Hx).
      unfold os_path_join. rewrite Hb. cbn [nonempty negb orb]. rewrite Hx.
      rewrite Hcut. now rewrite !append_assoc.
Qed.

(** X6.  A remote key under the root directory, with no further
    occurrence of the root directory and a slash in the rest, is cached
    under the download directory at that rest, and its record is written
    under the output directory at the rest with the json suffix; a key
    that does not hold the root directory and a slash at all is used
    whole. *)
Theorem cache_path_of_key (d : FsspecIngestDoc Child) (rest : string) :
  contains (dir_path (config d) +:+ "/") rest = false ->
  (remote_file_path d = PyStr (dir_path (config d) +:+ "/" +:+ rest) \/
   remote_file_path d = PyStr rest) ->
  _tmp_download_file d
  = Ok (truediv (of_string (download_dir (standard_config d))) rest) /\
  _output_filename d
  = Ok (truediv (of_string (output_dir (standard_config d))) (rest +:+ ".json")).
Proof.
  intros Hrest Hkey.
  assert (Hrel : relative_key d = Ok rest).
  { unfold relative_key. destruct Hkey as [-> | ->].
    - rewrite <- append_assoc, replace_prefix by (now destruct (dir_path (config d))).
      now rewrite replace_none.
    - now rewrite replace_none. }
  unfold _tmp_download_file, _output_filename. now rewrite Hrel.
Qed.

(** X7.  A remote key that begins with a slash and does not hold the
    root directory followed by a slash leaves the download directory and
    the output directory out: the cache path is the key itself, the
    output path the key with the json suffix. *)
Theorem absolute_key_escapes (d : FsspecIngestDoc Child) (key : string) :
  remote_file_path d = PyStr key ->
  contains (dir_path (config d) +:+ "/") key = false ->
  startswith key "/" = true ->
  _tmp_download_file d = Ok (of_string key) /\
  _output_filename d = Ok (of_string (key +:+ ".json")).
Proof.
  intros Hkey Hno Habs.
  destruct (cache_path_of_key d key Hno (or_intror Hkey)) as [-> ->].
  assert (Hroot : forall s, startswith s "/" = true -> nonempty (root (of_string s)) = true).
  { intros s Hs. cbn [of_string root]. unfold splitroot. rewrite Hs.
    now destruct (startswith s "//" && negb (startswith s "///")). }
  unfold truediv. rewrite (Hroot key Habs).
  rewrite (Hroot (key +:+ ".json")) by now apply startswith_extend.
  now split.
Qed.

End PathClaims.

(** * Further properties of the document lifecycle *)

Section LifecycleMore.
Context {H Child Elements : Type} `{Host H Child Elements}.

Local Abbreviation State := (St H Child).

Ltac grows_trivial :=
  repeat split; trivial;
  try (exists []; now rewrite app_nil_r).

Lemma grows_ret {A : Type} (a : A) : grows (ret (S := State) a).
Proof. intros st. cbn. grows_trivial. Qed.

Lemma grows_lift {A : Type} (r : result A) : grows (lift (H := H) (Child := Child) r).
Proof. intros st. cbn. grows_trivial. Qed.

Lemma grows_get_self : grows (get_self (H := H) (Child := Child)).
Proof. intros st. cbn. grows_trivial. Qed.

Lemma grows_ask_host {A : Type} (q : H -> A) : grows (ask_host (Child := Child) q).
Proof. intros st. cbn. grows_trivial. Qed.

Lemma grows_on_host {A : Type} (op : H -> H * result A) : grows (on_host (Child := Child) op).
Proof. intros st. unfold on_host. destruct (op (host st)). cbn. grows_trivial. Qed.

Lemma grows_emit (e : Event) : grows (emit (H := H) (Child := Child) e).
Proof. intros st. cbn. grows_trivial. now exists [e]. Qed.

Lemma grows_set_is_compressed : grows (set_is_compressed (H := H) (Child := Child)).
Proof. intros st. cbn. grows_trivial. Qed.

Lemma grows_children_extend (docs : list Child) : grows (children_extend (H := H) docs).
Proof. intros st. cbn. grows_trivial. now exists docs. Qed.

Lemma grows_step {A B : Type} (m : M State A) (st st' : State) (r : result A)
    (k : M State B) :
  grows m -> m st = (st', r) -> grows k ->
  standard_config (self (fst (k st'))) = standard_config (self st) /\
  config (self (fst (k st'))) = config (self st) /\
  remote_file_path (self (fst (k st'))) = remote_file_path (self st) /\
  (exists more, children (self (fst (k st'))) = children (self st) ++ more) /\
  (is_compressed (self st) = true -> is_compressed (self (fst (k st'))) = true) /\
  (exists events, trace (fst (k st')) = trace st ++ events).
Proof.
  intros Hm Hrun Hk. specialize (Hm st). rewrite Hrun in Hm. cbn [fst] in Hm.
  destruct Hm as (Hs & Hc & Hr & [more1 Hch] & Hz & [ev1 Htr]).
  destruct (Hk st') as (Hs' & Hc' & Hr' & [more2 Hch'] & Hz' & [ev2 Htr']).
  repeat split; try congruence.
  - exists (more1 ++ more2). now rewrite Hch', Hch, app_assoc.
  - auto.
  - exists (ev1 ++ ev2). now rewrite Htr', Htr, app_assoc.
Qed.

Lemma grows_bind {A B : Type} (m : M State A) (k : A -> M State B) :
  grows m -> (forall a, grows (k a)) -> grows (bind m k).
Proof.
  intros Hm Hk st. unfold bind. destruct (m st) as [st' [a|e]] eqn:E.
  - exact (grows_step m st st' (Ok a) (k a) Hm E (Hk a)).
  - specialize (Hm st). now rewrite E in Hm.
Qed.

Lemma grows_try_except {A : Type} (m : M State A) (catches : exn -> bool)
    (h : exn -> M State A) :
  grows m -> (forall e, grows (h e)) -> grows (try_except m catches h).
Proof.
  intros Hm Hh st. unfold try_except. destruct (m st) as [st' [a|e]] eqn:E.
  - specialize (Hm st). now rewrite E in Hm.
  - destruct (catches e).
    + exact (grows_step m st st' (Raise e) (h e) Hm E (Hh e)).
    + specialize (Hm st). now rewrite E in Hm.
Qed.

Lemma grows_when (b : bool) (m : M State unit) : grows m -> grows (when b m).
Proof. intros Hm. destruct b; [exact Hm | apply grows_ret]. Qed.

Lemma grows_if {A : Type} (b : bool) (m1 m2 : M State A) :
  grows m1 -> grows m2 -> grows (if b then m1 else m2).
Proof. now destruct b. Qed.

Create HintDb grows.
#[local] Hint Resolve grows_ret grows_lift grows_get_self grows_ask_host grows_on_host
  grows_emit grows_set_is_compressed grows_children_extend grows_bind
  grows_try_except grows_when grows_if : grows.

Lemma grows_process_zip (zip_path : string) : grows (process_zip zip_path).
Proof. unfold process_zip, local_docs. auto 12 with grows. Qed.

Lemma grows_process_tar (tar_path : string) : grows (process_tar tar_path).
Proof. unfold process_tar, local_docs. auto 14 with grows. Qed.

#[local] Hint Resolve grows_process_zip grows_process_tar : grows.

Lemma grows_get_file_body : grows get_file_body.
Proof. unfold get_file_body, _create_full_tmp_dir_path. auto 30 with grows. Qed.

(** X8.  Fetching and expanding never touch the identity of a document
    (its two configurations and its remote key), never drop or reorder
    children it already has, never take the archive mark back, and only
    append to the trace; this holds on every exit, also the raising ones. *)
Theorem lifecycle_only_grows :
  grows get_file_body /\
  (forall zip_path, grows (process_zip zip_path)) /\
  (forall tar_path, grows (process_tar tar_path)).
Proof.
  split; [exact grows_get_file_body |].
  split; [exact grows_process_zip | exact grows_process_tar].
Qed.

(** Running a method along the outcomes given as hypotheses. *)
Ltac run_along :=
  repeat (cbn [host self trace config standard_config remote_file_path
               is_compressed children fst snd];
          match goal with
          | Hrun : _ = _ |- _ => rewrite Hrun
          end).

Ltac unfold_get_file_body :=
  unfold get_file_body, _create_full_tmp_dir_path, process_zip, process_tar,
    local_docs, try_except, when, bind, get_self, lift, ask_host, on_host, emit,
    set_is_compressed, children_extend, ret.

(** The ways [get_file] ends before the remote filesystem is asked. *)
Lemma get_file_body_stops_early (st : State) :
  (forall e, filename (self st) = Raise e -> get_file_body st = (st, Raise e)) /\
  (forall f h1 e,
     filename (self st) = Ok f ->
     mkdir_parents (as_posix (parent f)) (host st) = (h1, Raise e) ->
     get_file_body st
     = ({| host := h1; self := self st; trace := trace st |}, Raise e)) /\
  (forall f h1 e,
     filename (self st) = Ok f ->
     mkdir_parents (as_posix (parent f)) (host st) = (h1, Ok tt) ->
     get_filesystem_class (protocol (config (self st)))
       (access_kwargs (config (self st))) h1 = Raise e ->
     get_file_body st
     = ({| host := h1; self := self st; trace := trace st |}, Raise e)).
Proof.
  unfold filename. split; [| split].
  - intros e Hf. unfold_get_file_body. now run_along.
  - intros f h1 e Hf Hmk. unfold_get_file_body. now run_along.
  - intros f h1 e Hf Hmk Hfs. unfold_get_file_body. now run_along.
Qed.

(** X9.  If the directories cannot be made, or the filesystem object
    cannot be built, [get_file] raises that error at once: the document is
    untouched, nothing is logged and the remote filesystem is not asked
    for the file. *)
Theorem get_file_body_early_failure (st : State) (f : Path) :
  filename (self st) = Ok f ->
  (forall h1 e,
     mkdir_parents (as_posix (parent f)) (host st) = (h1, Raise e) ->
     get_file_body st
     = ({| host := h1; self := self st; trace := trace st |}, Raise e)) /\
  (forall h1 e,
     mkdir_parents (as_posix (parent f)) (host st) = (h1, Ok tt) ->
     get_filesystem_class (protocol (config (self st)))
       (access_kwargs (config (self st))) h1 = Raise e ->
     get_file_body st
     = ({| host := h1; self := self st; trace := trace st |}, Raise e)).
Proof.
  intros Hf. destruct (get_file_body_stops_early st) as (_ & Hmk & Hfs).
  split; intros h1 e; [apply Hmk | apply Hfs]; exact Hf.
Qed.

(** X10.  One run of [get_file] asks the remote filesystem at most once,
    whatever the host does, and then for the document's own remote key
    and cache path. *)
Theorem get_file_body_fetches_at_most_once (st : State) :
  fetch_calls (trace (fst (get_file_body st))) = fetch_calls (trace st) \/
  exists f, filename (self st) = Ok f /\
            fetch_calls (trace (fst (get_file_body st)))
            = fetch_calls (trace st) ++ [(remote_file_path (self st), as_posix f)].
Proof.
  destruct (get_file_body_stops_early st) as (Hno & Hmk & Hfs).
  destruct (filename (self st)) as [f|e] eqn:Hf.
  2: { left. now rewrite (Hno e eq_refl). }
  destruct (mkdir_parents (as_posix (parent f)) (host st)) as [h1 [[]|e]] eqn:Emk.
  2: { left. now rewrite (Hmk f h1 e eq_refl Emk). }
  destruct (get_filesystem_class (protocol (config (self st)))
              (access_kwargs (config (self st))) h1) as [[]|e] eqn:Efs.
  2: { left. now rewrite (Hfs f h1 e eq_refl Emk Efs). }
  right. exists f. split; [reflexivity |].
  destruct (get_file_body_fetch st f h1 Hf Emk Efs) as (after & Hq & ->).
  destruct (Hq {| host := h1; self := self st;
                  trace := (trace st ++ [Log DEBUG (fetching_msg (self st) h1)]) ++
                             [FsGet (remote_file_path (self st)) (as_posix f)] |})
    as [-> _].
  cbn [trace]. rewrite !fetch_calls_app. cbn. now rewrite app_nil_r.
Qed.

(** X11.  When the remote filesystem fails to deliver the file,
    [get_file] raises its error: the call is on the trace, the file is
    not inspected, the document is neither marked nor given children. *)
Theorem get_file_body_fetch_failure (st : State) (f : Path) (h1 h2 : H) (e : exn) :
  filename (self st) = Ok f ->
  mkdir_parents (as_posix (parent f)) (host st) = (h1, Ok tt) ->
  get_filesystem_class (protocol (config (self st)))
    (access_kwargs (config (self st))) h1 = Ok tt ->
  fs_get (protocol (config (self st))) (access_kwargs (config (self st)))
    (remote_file_path (self st)) (as_posix f) h1 = (h2, Raise e) ->
  get_file_body st
  = ({| host := h2; self := self st;
        trace := (trace st ++ [Log DEBUG (fetching_msg (self st) h1)]) ++
                   [FsGet (remote_file_path (self st)) (as_posix f)] |},
     Raise e).
Proof.
  unfold filename. intros Hf Hmk Hfs Hget. unfold_get_file_body. now run_along.
Qed.

(** With expansion disabled the fetched file is only classified. *)
Lemma get_file_body_classifies (st : State) (f : Path) (h1 h2 : H) (z t : bool) :
  filename (self st) = Ok f ->
  mkdir_parents (as_posix (parent f)) (host st) = (h1, Ok tt) ->
  get_filesystem_class (protocol (config (self st)))
    (access_kwargs (config (self st))) h1 = Ok tt ->
  fs_get (protocol (config (self st))) (access_kwargs (config (self st)))
    (remote_file_path (self st)) (as_posix f) h1 = (h2, Ok tt) ->
  uncompress (config (self st)) = false ->
  is_zipfile (as_posix f) h2 = z ->
  is_tarfile (as_posix f) h2 = Ok t ->
  get_file_body st
  = ({| host := h2;
        self := if z || t then marked (self st) else self st;
        trace := (trace st ++ [Log DEBUG (fetching_msg (self st) h1)]) ++
                   [FsGet (remote_file_path (self st)) (as_posix f)] |},
     Ok tt).
Proof.
  unfold filename. intros Hf Hmk Hfs Hget Hun Hz Ht.
  unfold_get_file_body. destruct z, t; now run_along.
Qed.

(** X12.  With expansion disabled, a fetched file is classified and
    nothing more: the document is marked exactly when the file is a zip or
    a tar archive, no archive is extracted, the children are as before. *)
Theorem get_file_body_without_expansion (st : State) (f : Path) (h1 h2 : H) (z t : bool) :
  filename (self st) = Ok f ->
  mkdir_parents (as_posix (parent f)) (host st) = (h1, Ok tt) ->
  get_filesystem_class (protocol (config (self st)))
    (access_kwargs (config (self st))) h1 = Ok tt ->
  fs_get (protocol (config (self st))) (access_kwargs (config (self st)))
    (remote_file_path (self st)) (as_posix f) h1 = (h2, Ok tt) ->
  uncompress (config (self st)) = false ->
  is_zipfile (as_posix f) h2 = z ->
  is_tarfile (as_posix f) h2 = Ok t ->
  get_file_body st
  = ({| host := h2;
        self := if z || t then marked (self st) else self st;
        trace := (trace st ++ [Log DEBUG (fetching_msg (self st) h1)]) ++
                   [FsGet (remote_file_path (self st)) (as_posix f)] |},
     Ok tt).
Proof.
  unfold filename. intros Hf Hmk Hfs Hget Hun Hz Ht.
  unfold_get_file_body. subst z.
  destruct (is_zipfile (as_posix f) h2) eqn:Hz, t; now run_along.
Qed.

(** X13.  Fetching and then processing, with expansion disabled: an
    archive yields nothing but a warning, the host being left as the
    fetch left it; any other file of a document not yet marked goes to
    the inherited processing step. *)
Theorem fetch_then_process (st : State) (f : Path) (h1 h2 : H) (z t : bool) :
  filename (self st) = Ok f ->
  mkdir_parents (as_posix (parent f)) (host st) = (h1, Ok tt) ->
  get_filesystem_class (protocol (config (self st)))
    (access_kwargs (config (self st))) h1 = Ok tt ->
  fs_get (protocol (config (self st))) (access_kwargs (config (self st)))
    (remote_file_path (self st)) (as_posix f) h1 = (h2, Ok tt) ->
  uncompress (config (self st)) = false ->
  is_zipfile (as_posix f) h2 = z ->
  is_tarfile (as_posix f) h2 = Ok t ->
  is_compressed (self st) = false ->
  let fetched :=
    (trace st ++ [Log DEBUG (fetching_msg (self st) h1)]) ++
      [FsGet (remote_file_path (self st)) (as_posix f)] in
  (get_file_body ;; process_file) st
  = if z || t
    then ({| host := h2; self := marked (self st);
             trace := fetched ++
               [Log WARNING ("file detected as zip, skipping process file: "
                             +:+ as_posix f)] |},
          Ok None)
    else on_host (super_process_file (self st))
           {| host := h2; self := self st; trace := fetched |}.
Proof.
  intros Hf Hmk Hfs Hget Hun Hz Ht Hc fetched.
  unfold bind at 1.
  rewrite (get_file_body_classifies st f h1 h2 z t Hf Hmk Hfs Hget Hun Hz Ht).
  unfold filename in Hf.
  unfold process_file, filename, bind, get_self, lift, emit, ret.
  destruct (z || t); cbn [self is_compressed marked].
  - unfold _tmp_download_file, relative_key in *. cbn [marked remote_file_path
      config standard_config] in *. now rewrite Hf.
  - now rewrite Hc.
Qed.

(** X14.  A successful expansion appends the documents of the local
    connector, in its order, after the children already there, for zip
    and tar alike, and logs the extraction. *)
Theorem expansion_appends_children (st : State) :
  (forall zip_path h1 h2 docs,
     zip_extractall zip_path (uncompressed_dir zip_path "-zip-uncompressed") (host st)
     = (h1, Ok tt) ->
     local_get_ingest_docs (standard_config (self st))
       (uncompressed_dir zip_path "-zip-uncompressed") h1 = (h2, Ok docs) ->
     process_zip zip_path st
     = ({| host := h2; self := with_children (self st) docs;
           trace := trace st ++
             [Log INFO ("extracting zip " +:+ zip_path +:+ " -> "
                        +:+ uncompressed_dir zip_path "-zip-uncompressed")] |},
        Ok tt)) /\
  (forall tar_path h1 h2 docs,
     tar_extractall tar_path (uncompressed_dir tar_path "-tar-uncompressed") (host st)
     = (h1, Ok tt) ->
     local_get_ingest_docs (standard_config (self st))
       (uncompressed_dir tar_path "-tar-uncompressed") h1 = (h2, Ok docs) ->
     process_tar tar_path st
     = ({| host := h2; self := with_children (self st) docs;
           trace := trace st ++
             [Log INFO ("extracting tar " +:+ tar_path +:+ " -> "
                        +:+ uncompressed_dir tar_path "-tar-uncompressed")] |},
        Ok tt)).
Proof.
  split.
  - intros zip_path h1 h2 docs Hzip Hloc. unfold_get_file_body. now run_along.
  - intros tar_path h1 h2 docs Htar Hloc. unfold_get_file_body. now run_along.
Qed.

(** X15.  The recovery of [process_tar] is narrow: an extraction error of
    any class but [ReadError] leaves the method, and so does every error
    of the local connector, which runs after the guarded block; the
    children stay as they were. *)
Theorem process_tar_other_errors (st : State) (tar_path : string) :
  (forall h1 e,
     tar_extractall tar_path (uncompressed_dir tar_path "-tar-uncompressed") (host st)
     = (h1, Raise e) ->
     is_ReadError e = false ->
     process_tar tar_path st
     = ({| host := h1; self := self st;
           trace := trace st ++
             [Log INFO ("extracting tar " +:+ tar_path +:+ " -> "
                        +:+ uncompressed_dir tar_path "-tar-uncompressed")] |},
        Raise e)) /\
  (forall h1 h2 e,
     tar_extractall tar_path (uncompressed_dir tar_path "-tar-uncompressed") (host st)
     = (h1, Ok tt) ->
     local_get_ingest_docs (standard_config (self st))
       (uncompressed_dir tar_path "-tar-uncompressed") h1 = (h2, Raise e) ->
     process_tar tar_path st
     = ({| host := h2; self := self st;
           trace := trace st ++
             [Log INFO ("extracting tar " +:+ tar_path +:+ " -> "
                        +:+ uncompressed_dir tar_path "-tar-uncompressed")] |},
        Raise e)).
Proof.
  split.
  - intros h1 e Htar He. unfold_get_file_body. now run_along.
  - intros h1 h2 e Htar Hloc. unfold_get_file_body. now run_along.
Qed.

(** X16.  Fetching a zip archive with expansion enabled, when the
    extraction and the local connector succeed and the file is no tar
    archive: the document ends marked, with the local documents appended
    to its children. *)
Theorem get_file_body_expands_zip (st : State) (f : Path) (h1 h2 h3 h4 : H)
    (docs : list Child) :
  filename (self st) = Ok f ->
  mkdir_parents (as_posix (parent f)) (host st) = (h1, Ok tt) ->
  get_filesystem_class (protocol (config (self st)))
    (access_kwargs (config (self st))) h1 = Ok tt ->
  fs_get (protocol (config (self st))) (access_kwargs (config (self st)))
    (remote_file_path (self st)) (as_posix f) h1 = (h2, Ok tt) ->
  uncompress (config (self st)) = true ->
  is_zipfile (as_posix f) h2 = true ->
  zip_extractall (as_posix f) (uncompressed_dir (as_posix f) "-zip-uncompressed") h2
  = (h3, Ok tt) ->
  local_get_ingest_docs (standard_config (self st))
    (uncompressed_dir (as_posix f) "-zip-uncompressed") h3 = (h4, Ok docs) ->
  is_tarfile (as_posix f) h4 = Ok false ->
  get_file_body st
  = ({| host := h4; self := with_children (marked (self st)) docs;
        trace := ((trace st ++ [Log DEBUG (fetching_msg (self st) h1)]) ++
                    [FsGet (remote_file_path (self st)) (as_posix f)]) ++
                   [Log INFO ("extracting zip " +:+ as_posix f +:+ " -> "
                              +:+ uncompressed_dir (as_posix f) "-zip-uncompressed")] |},
     Ok tt).
Proof.
  unfold filename. intros Hf Hmk Hfs Hget Hun Hz Hzip Hloc Ht.
  unfold_get_file_body. now run_along.
Qed.

(** X17.  A document whose remote key is [None] cannot be fetched: the
    cache path and the output path raise an [AttributeError], and
    [get_file] raises it before any host operation. *)
Theorem none_key_fails (st : State) :
  remote_file_path (self st) = PyNone ->
  let e := OtherError "AttributeError" "'NoneType' object has no attribute 'replace'" in
  _tmp_download_file (self st) = Raise e /\
  _output_filename (self st) = Raise e /\
  get_file_body st = (st, Raise e).
Proof.
  intros Hkey e.
  assert (Hf : filename (self st) = Raise e).
  { unfold filename, _tmp_download_file, relative_key. now rewrite Hkey. }
  split; [exact Hf |]. split.
  - unfold _output_filename, relative_key. now rewrite Hkey.
  - exact (proj1 (get_file_body_stops_early st) e Hf).
Qed.

End LifecycleMore.

(** * Listings without names *)

Section ListerMore.
Context {FS : Type} `{AbstractFileSystem FS}.
Variable Child : Type.

(** X18.  An entry with a positive size and no name is kept: the listing
    holds [None] for it, the connector makes a document whose remote key
    is [None], and the cache path of that document raises an
    [AttributeError]. *)
Theorem nameless_entry_is_kept (self : FsspecConnector FS)
    (entries : list (gmap string pyval)) (x : gmap string pyval) :
  recursive (connector_config self) = false ->
  fs_ls (fs self) (path_without_protocol (connector_config self)) = Ok entries ->
  Forall int_size entries ->
  In x entries -> size_positive x = true -> x !! "name" = None ->
  exists files docs d,
    _list_files self = Ok files /\ In PyNone files /\
    get_ingest_docs (Child := Child) self = Ok docs /\ In d docs /\
    remote_file_path d = PyNone /\
    _tmp_download_file d
    = Raise (OtherError "AttributeError" "'NoneType' object has no attribute 'replace'").
Proof.
  intros Hrec Hls Hall Hin Hpos Hname.
  assert (Hfiles : _list_files self
                   = Ok (map (fun x => dict_get x "name")
                           (List.filter size_positive entries))).
  { unfold _list_files. rewrite Hrec, Hls. cbn [negb].
    exact (comprehension_filter _ (fun x => dict_get x "size") entries Hall). }
  assert (Hnone : In PyNone (map (fun x => dict_get x "name")
                               (List.filter size_positive entries))).
  { apply List.in_map_iff. exists x.
    split; [now apply dict_get_missing |]. apply List.filter_In. now split. }
  eexists _, _, {| standard_config := connector_standard_config self;
                   config := connector_config self;
                   remote_file_path := PyNone;
                   is_compressed := false; children := [] |}.
  split; [exact Hfiles |]. split; [exact Hnone |].
  unfold get_ingest_docs. rewrite Hfiles.
  split; [reflexivity |]. split; [| now split].
  exact (List.in_map (fun file => {| standard_config := connector_standard_config self;
                                config := connector_config self;
                                remote_file_path := file;
                                is_compressed := false; children := [] |})
           _ PyNone Hnone).
Qed.

End ListerMore.

(** * The further properties on sample data *)

Lemma root_plus_object_shape_witness :
  __post_init__ "s3://bucket/reports/q1 final.pdf" true [] false
  = Ok {| path := "s3://bucket/reports/q1 final.pdf"; recursive := true;
          access_kwargs := []; protocol := "s3";
          path_without_protocol := "bucket/reports/q1 final.pdf";
          dir_path := "bucket"; file_path := "reports/q1"; uncompress := false |}.
Proof.
  apply (root_plus_object_shape true [] false "s3" "bucket" "reports/q1" " final.pdf");
    (reflexivity || discriminate).
Defined.

Lemma root_only_trailing_newline_witness :
  __post_init__ ("gs://bucket/" +:+ String "010" "") false [] false
  = Ok {| path := "gs://bucket/" +:+ String "010" ""; recursive := false;
          access_kwargs := []; protocol := "gs";
          path_without_protocol := "bucket/" +:+ String "010" "";
          dir_path := "bucket"; file_path := ""; uncompress := false |}.
Proof.
  apply (root_only_trailing_newline false [] false "gs" "bucket" "/");
    (reflexivity || discriminate).
Defined.

Lemma empty_root_rejected_witness :
  __post_init__ "s3://" false [] false
  = Raise (ValueError (invalid_path_msg "s3://")) /\
  __post_init__ "dropbox:///reports" false [] false
  = Raise (ValueError (invalid_path_msg "dropbox:///reports")) /\
  __post_init__ "az:// /reports" false [] false
  = Raise (ValueError (invalid_path_msg "az:// /reports")).
Proof.
  split; [| split].
  - apply (empty_root_rejected false [] false "s3" ""); [reflexivity | reflexivity |].
    left. reflexivity.
  - apply (empty_root_rejected false [] false "dropbox" "/reports");
      [reflexivity | reflexivity |].
    right. left. reflexivity.
  - apply (empty_root_rejected false [] false "az" " /reports");
      [reflexivity | reflexivity |].
    right. right. split; [reflexivity |]. now exists " "%char, "/reports".
Defined.

Lemma post_init_invariants_witness :
  "bucket/a/b.txt" = "bucket" +:+ "/" +:+ "a/b.txt".
Proof.
  destruct (post_init_invariants true [] false "s3://bucket/a/b.txt"
           {| path := "s3://bucket/a/b.txt"; recursive := true; access_kwargs := [];
              protocol := "s3"; path_without_protocol := "bucket/a/b.txt";
              dir_path := "bucket"; file_path := "a/b.txt"; uncompress := false |}
           eq_refl) as (_ & _ & _ & _ & [Hroot | (_ & _ & _ & Hfile)]).
  - destruct Hroot as (Hp & _). discriminate Hp.
  - apply Hfile; [discriminate | reflexivity].
Defined.

Lemma uncompressed_dir_appends_witness :
  uncompressed_dir "/tmp/dl/a.zip" "-zip-uncompressed"
  = "/tmp/dl/a.zip" +:+ "-zip-uncompressed".
Proof.
  apply (uncompressed_dir_appends "/tmp/dl/a.zip" "-zip-uncompressed"); reflexivity.
Defined.

Lemma cache_path_of_key_witness :
  _tmp_download_file (sample_doc "bucket/2023/report.txt" false false)
  = Ok (truediv (of_string "/tmp/dl") "2023/report.txt") /\
  _output_filename (sample_doc "bucket/2023/report.txt" false false)
  = Ok (truediv (of_string "/out") ("2023/report.txt" +:+ ".json")).
Proof.
  apply (cache_path_of_key (sample_doc "bucket/2023/report.txt" false false)
           "2023/report.txt"); [reflexivity | left; reflexivity].
Defined.

Lemma absolute_key_escapes_witness :
  _tmp_download_file (dropbox_doc (PyStr "/reports/q1.pdf"))
  = Ok (of_string "/reports/q1.pdf") /\
  _output_filename (dropbox_doc (PyStr "/reports/q1.pdf"))
  = Ok (of_string ("/reports/q1.pdf" +:+ ".json")).
Proof.
  apply (absolute_key_escapes (dropbox_doc (PyStr "/reports/q1.pdf")) "/reports/q1.pdf");
    reflexivity.
Defined.

Lemma lifecycle_only_grows_witness :
  let st := sample_state "bucket/a.zip" (ZipFile true) true false in
  exists more,
    children (self (fst (get_file_body (Elements := list string) st)))
    = children (self st) ++ more.
Proof.
  intros st.
  destruct (proj1 (lifecycle_only_grows (Elements := list string)) st)
    as (_ & _ & _ & Hmore & _).
  exact Hmore.
Defined.

Lemma get_file_body_early_failure_witness :
  let denied := OtherError "PermissionError" "Permission denied" in
  let missing := OtherError "ImportError" "Install s3fs to access S3" in
  snd (get_file_body (Elements := list string)
         (flaky_state "bucket/a.txt" "/tmp/x" PlainFile false (Some denied) None None None))
  = Raise denied /\
  snd (get_file_body (Elements := list string)
         (flaky_state "bucket/a.txt" "/tmp/x" PlainFile false None (Some missing) None None))
  = Raise missing.
Proof.
  intros denied missing. split.
  - erewrite (proj1 (get_file_body_early_failure (Elements := list string)
                       (flaky_state "bucket/a.txt" "/tmp/x" PlainFile false
                          (Some denied) None None None)
                       {| root := "/"; parts := ["tmp"; "dl"; "a.txt"] |} eq_refl));
      reflexivity.
  - erewrite (proj2 (get_file_body_early_failure (Elements := list string)
                       (flaky_state "bucket/a.txt" "/tmp/x" PlainFile false
                          None (Some missing) None None)
                       {| root := "/"; parts := ["tmp"; "dl"; "a.txt"] |} eq_refl));
      reflexivity.
Defined.

Lemma get_file_body_fetches_at_most_once_witness :
  let st := sample_state "bucket/a.zip" (ZipFile true) true false in
  fetch_calls (trace (fst (get_file_body (Elements := list string) st))) = [] \/
  exists f, filename (self st) = Ok f /\
            fetch_calls (trace (fst (get_file_body (Elements := list string) st)))
            = [] ++ [(PyStr "bucket/a.zip", as_posix f)].
Proof.
  intros st. exact (get_file_body_fetches_at_most_once (Elements := list string) st).
Defined.

Lemma get_file_body_fetch_failure_witness :
  let st := {| host := {| disk := ∅; bucket := ∅ |};
               self := sample_doc "bucket/gone.txt" false false;
               trace := [] |} in
  get_file_body (Elements := list string) st
  = ({| host := host st; self := self st;
        trace := [Log DEBUG "Fetching";
                  FsGet (PyStr "bucket/gone.txt") "/tmp/dl/gone.txt"] |},
     Raise (OtherError "FileNotFoundError" "bucket/gone.txt")).
Proof.
  intros st.
  refine (get_file_body_fetch_failure (Elements := list string) st
            {| root := "/"; parts := ["tmp"; "dl"; "gone.txt"] |} (host st) (host st)
            (OtherError "FileNotFoundError" "bucket/gone.txt") _ _ _ _);
    reflexivity.
Defined.

Lemma get_file_body_without_expansion_witness :
  let st := sample_state "bucket/a.tar" (TarFile true) false false in
  is_compressed (self (fst (get_file_body (Elements := list string) st))) = true /\
  children (self (fst (get_file_body (Elements := list string) st))) = [].
Proof.
  intros st.
  erewrite (get_file_body_without_expansion (Elements := list string) st
              {| root := "/"; parts := ["tmp"; "dl"; "a.tar"] |} (host st) _ false true);
    [split; reflexivity | reflexivity ..].
Defined.

Lemma fetch_then_process_witness :
  let st := sample_state "bucket/a.zip" (ZipFile true) false false in
  snd ((get_file_body ;; process_file (Elements := list string)) st) = Ok None.
Proof.
  intros st.
  erewrite (fetch_then_process (Elements := list string) st
              {| root := "/"; parts := ["tmp"; "dl"; "a.zip"] |} (host st) _ true false);
    [reflexivity | reflexivity ..].
Defined.

Lemma expansion_appends_children_witness :
  let st := fetched_state "bucket/a.zip" "/tmp/dl/a.zip" (ZipFile true) true true in
  children (self (fst (process_zip (Elements := list string) "/tmp/dl/a.zip" st)))
  = [] ++ [{| local_path := "/tmp/dl/a.zip-zip-uncompressed/inner.txt" |}].
Proof.
  intros st.
  erewrite (proj1 (expansion_appends_children (Elements := list string) st)
              "/tmp/dl/a.zip" _ _
              [{| local_path := "/tmp/dl/a.zip-zip-uncompressed/inner.txt" |}]);
    reflexivity.
Defined.

Lemma process_tar_other_errors_witness :
  let denied := OtherError "PermissionError" "Permission denied" in
  snd (process_tar (Elements := list string) "/tmp/dl/a.tar"
         (flaky_state "bucket/a.tar" "/tmp/dl/a.tar" (TarFile true) true
            None None (Some denied) None))
  = Raise denied /\
  snd (process_tar (Elements := list string) "/tmp/dl/a.tar"
         (flaky_state "bucket/a.tar" "/tmp/dl/a.tar" (TarFile true) true
            None None None (Some denied)))
  = Raise denied.
Proof.
  intros denied. split.
  - erewrite (proj1 (process_tar_other_errors (Elements := list string)
                       (flaky_state "bucket/a.tar" "/tmp/dl/a.tar" (TarFile true) true
                          None None (Some denied) None) "/tmp/dl/a.tar"));
      reflexivity.
  - erewrite (proj2 (process_tar_other_errors (Elements := list string)
                       (flaky_state "bucket/a.tar" "/tmp/dl/a.tar" (TarFile true) true
                          None None None (Some denied)) "/tmp/dl/a.tar"));
      reflexivity.
Defined.

Lemma get_file_body_expands_zip_witness :
  let st := sample_state "bucket/a.zip" (ZipFile true) true false in
  is_compressed (self (fst (get_file_body (Elements := list string) st))) = true /\
  children (self (fst (get_file_body (Elements := list string) st)))
  = [{| local_path := "/tmp/dl/a.zip-zip-uncompressed/inner.txt" |}].
Proof.
  intros st.
  erewrite (get_file_body_expands_zip (Elements := list string) st
              {| root := "/"; parts := ["tmp"; "dl"; "a.zip"] |} (host st) _ _ _
              [{| local_path := "/tmp/dl/a.zip-zip-uncompressed/inner.txt" |}]);
    [split; reflexivity | reflexivity ..].
Defined.

Lemma none_key_fails_witness :
  let st := {| host := {| disk := ∅; bucket := ∅ |};
               self := dropbox_doc PyNone; trace := [] |} in
  get_file_body (Elements := list string) st
  = (st, Raise (OtherError "AttributeError"
                  "'NoneType' object has no attribute 'replace'")).
Proof.
  intros st.
  exact (proj2 (proj2 (none_key_fails (Elements := list string) st eq_refl))).
Defined.

Lemma nameless_entry_is_kept_witness :
  exists files docs d,
    _list_files (sample_connector false [entry_dir; entry_nameless]) = Ok files /\
    In PyNone files /\
    get_ingest_docs (Child := LocalDoc)
      (sample_connector false [entry_dir; entry_nameless]) = Ok docs /\
    In d docs /\ remote_file_path d = PyNone /\
    _tmp_download_file d
    = Raise (OtherError "AttributeError" "'NoneType' object has no attribute 'replace'").
Proof.
  refine (nameless_entry_is_kept LocalDoc
            (sample_connector false [entry_dir; entry_nameless])
            [entry_dir; entry_nameless] entry_nameless _ _ _ _ _ _);
    try reflexivity.
  - repeat constructor; [exists 0%Z | exists 3%Z]; reflexivity.
  - right. left. reflexivity.
Defined.
